(** * The Flask application of [main.py]: session bookkeeping, login and
      the two-slot undo buffer

    The development embeds [main.py] shallowly.  A Python [dict] is a
    [gmap string _]; a Python [str] is a [string], one character per code
    point below 256; a Python exception is a value of [exn] carried by the
    [Raise] outcome of a state-and-error monad; the remote services (Gemini
    text and image models, the instagrapi client, Pillow, the clock) are the
    fields of a record [services] whose answers may depend on the history of
    calls made so far.  [print] and the server log are left out.  The
    session is threaded from one request to the next: the browser sends back
    the cookie it was last given. *)

From Stdlib Require Import String Ascii List Bool Arith Lia.
From stdpp Require Import base option gmap strings list fin_maps.

Set Warnings "-register-all".
Local Open Scope string_scope.

(** ** Python values *)

(** The values that travel through the Flask session, the JSON request
    bodies and the JSON responses. *)
Inductive pyval : Type :=
| PNone
| PBool (b : bool)
| PInt (n : Z)
| PStr (s : string)
| PList (l : list pyval)
| PDict (d : gmap string pyval).

(** Python truth value testing: [None], [False], [0], the empty string, the
    empty list and the empty dict are false, everything else is true. *)
Definition truthy (v : pyval) : bool :=
  match v with
  | PNone => false
  | PBool b => b
  | PInt n => negb (Z.eqb n 0)
  | PStr s => negb (String.eqb s "")
  | PList l => match l with [] => false | _ => true end
  | PDict d => negb (Nat.eqb (size d) 0)
  end.

(** [d.get(k)] on a dict: the stored value, [None] when the key is absent. *)
Definition dict_get (d : gmap string pyval) (k : string) : pyval :=
  default PNone (d !! k).

(** [d.get(k, dflt)]. *)
Definition dict_get_default (d : gmap string pyval) (k : string) (dflt : pyval) : pyval :=
  default dflt (d !! k).

(** [d.pop(k, None)]: removes the key when present, no error otherwise. *)
Definition dict_pop (d : gmap string pyval) (k : string) : gmap string pyval :=
  delete k d.

(** An optional Python string ([str] or [None]) as a value. *)
Definition of_opt_str (o : option string) : pyval :=
  match o with
  | Some s => PStr s
  | None => PNone
  end.

(** [not x] for an optional string: true for [None] and for [""]. *)
Definition falsy_str (o : option string) : bool :=
  negb (truthy (of_opt_str o)).

(** ** Strings *)

(** [str.isspace] on one code point below 256: TAB..CR, FS..US, SPACE,
    NEL (0x85) and NBSP (0xA0). *)
Definition isspace (c : ascii) : bool :=
  let n := nat_of_ascii c in
  (((9 <=? n) && (n <=? 13)) || ((28 <=? n) && (n <=? 32))
   || (n =? 133) || (n =? 160))%nat.

(** [s.lstrip()]. *)
Fixpoint lstrip (s : string) : string :=
  match s with
  | EmptyString => EmptyString
  | String c s' => if isspace c then lstrip s' else s
  end.

(** [s.rstrip()]: a trailing run of whitespace is dropped. *)
Fixpoint rstrip (s : string) : string :=
  match s with
  | EmptyString => EmptyString
  | String c s' =>
      match rstrip s' with
      | EmptyString => if isspace c then EmptyString else String c EmptyString
      | r => String c r
      end
  end.

(** [s.strip()]. *)
Definition strip (s : string) : string := rstrip (lstrip s).

(** Does the string hold a character that is not whitespace? *)
Fixpoint has_nonspace (s : string) : bool :=
  match s with
  | EmptyString => false
  | String c s' => negb (isspace c) || has_nonspace s'
  end.

(** [sub in s]. *)
Fixpoint str_contains (sub s : string) : bool :=
  String.prefix sub s ||
  match s with
  | EmptyString => false
  | String _ s' => str_contains sub s'
  end.

(** [str(v)] as an f-string renders an optional string. *)
Definition fmt_opt_str (o : option string) : string :=
  match o with
  | Some s => s
  | None => "None"
  end.

(** The double-quote character, for the literals that contain it. *)
Definition dquote : string := String (ascii_of_nat 34) EmptyString.

(** The line feed of a multi-line literal. *)
Definition nl : string := String (ascii_of_nat 10) EmptyString.

(** ** Exceptions and outcomes *)

(** The classes the code names, and one constructor for every other
    subclass of [Exception] a library may raise. *)
Inductive exn_class : Type :=
| ValueError
| ConnectionError
| AttributeError
| TypeError
| LibraryError (name : string).

(** An exception: its class and [str(e)]. *)
Record exn : Type := MkExn { exn_cls : exn_class; exn_str : string }.

(** What running a piece of Python yields: a value, or a raised exception. *)
Inductive outcome (A : Type) : Type :=
| Ret (a : A)
| Raise (e : exn).
Arguments Ret {A} a.
Arguments Raise {A} e.

(** ** The world a request runs in *)

(** A Pillow image: its colour mode and its raster. *)
Record pil_image : Type := MkImage { img_mode : string; img_raster : string }.

(** What a file on disk holds. *)
Inductive file_content : Type :=
| FSettings (settings : string)
| FImage (img : pil_image)
| FRaw (raw : string).

(** The instagrapi [Client]: its settings (what [dump_settings] writes and
    [load_settings] reads) and the attribute [logged_in], when it has one. *)
Record ig_client : Type := MkClient {
  cl_settings : string;
  cl_logged_in : option pyval
}.

(** [Client()]. *)
Definition fresh_client : ig_client :=
  {| cl_settings := ""; cl_logged_in := None |}.

(** The calls that leave the process. *)
Inductive event : Type :=
| EvTextCall (model contents : string)
| EvImageCall (model contents : string)
| EvClock
| EvLogin (username password : pyval)
| EvUpload (path : string) (caption : pyval).

(** One browser session talking to the one server process: the Flask
    [session] dict, the flashed messages (Flask keeps them under a key of
    its own, apart from the application's keys), the files on disk keyed by
    the path the code uses, the global [cl], and the calls made so far. *)
Record world : Type := MkWorld {
  session : gmap string pyval;
  flashes : list (string * string);
  files : gmap string file_content;
  cl : ig_client;
  log : list event
}.

Definition set_session (f : gmap string pyval -> gmap string pyval) (w : world) : world :=
  {| session := f (session w); flashes := flashes w; files := files w;
     cl := cl w; log := log w |}.

Definition set_flashes (f : list (string * string) -> list (string * string)) (w : world) : world :=
  {| session := session w; flashes := f (flashes w); files := files w;
     cl := cl w; log := log w |}.

Definition set_files (f : gmap string file_content -> gmap string file_content) (w : world) : world :=
  {| session := session w; flashes := flashes w; files := f (files w);
     cl := cl w; log := log w |}.

Definition set_cl (c : ig_client) (w : world) : world :=
  {| session := session w; flashes := flashes w; files := files w;
     cl := c; log := log w |}.

Definition add_event (e : event) (w : world) : world :=
  {| session := session w; flashes := flashes w; files := files w;
     cl := cl w; log := (log w ++ [e])%list |}.

(** ** The state-and-error monad of the handlers *)

Definition M (A : Type) : Type := world -> outcome A * world.

Definition ret {A} (a : A) : M A := fun w => (Ret a, w).

Definition raise {A} (e : exn) : M A := fun w => (Raise e, w).

Definition bind {A B} (m : M A) (k : A -> M B) : M B :=
  fun w =>
    match m w with
    | (Ret a, w') => k a w'
    | (Raise e, w') => (Raise e, w')
    end.

(** [try: m  except Exception as e: h e]. *)
Definition try_except {A} (m : M A) (h : exn -> M A) : M A :=
  fun w =>
    match m w with
    | (Ret a, w') => (Ret a, w')
    | (Raise e, w') => h e w'
    end.

Definition gets {A} (f : world -> A) : M A := fun w => (Ret (f w), w).

Definition modify (f : world -> world) : M unit := fun w => (Ret tt, f w).

(** Lifts the outcome of a call. *)
Definition lift {A} (o : outcome A) : M A := fun w => (o, w).

Notation "x <- m ;; k" := (bind m (fun x => k))
  (at level 100, m at next level, right associativity).
Notation "m ;;; k" := (bind m (fun _ => k))
  (at level 100, right associativity).

(** ** Flask primitives *)

(** [session.get(k)] and [session.get(k, None)]. *)
Definition session_get (k : string) : M pyval :=
  gets (fun w => dict_get (session w) k).

(** [session[k] = v]. *)
Definition session_set (k : string) (v : pyval) : M unit :=
  modify (set_session (fun s => <[k := v]> s)).

(** [session.pop(k, None)]. *)
Definition session_pop (k : string) : M unit :=
  modify (set_session (fun s => dict_pop s k)).

(** [k in session]. *)
Definition session_has (k : string) : M bool :=
  gets (fun w => bool_decide (is_Some (session w !! k))).

(** [flash(message, category)]. *)
Definition flash (message category : string) : M unit :=
  modify (set_flashes (fun fl => (fl ++ [(category, message)])%list)).

(** What a view returns. *)
Inductive body : Type :=
| Json (v : pyval)
| Redirect (location : string)
| Template (name : string) (args : gmap string pyval)
| ErrorPage.

Record response : Type := MkResponse { status : nat; resp_body : body }.

(** [jsonify(v)] and [jsonify(v), code]. *)
Definition jsonify (v : pyval) : response := {| status := 200; resp_body := Json v |}.
Definition jsonify_status (v : pyval) (code : nat) : response :=
  {| status := code; resp_body := Json v |}.

(** [url_for(endpoint)] yields the rule of the route; the views ask for
    [instagram_login_page] and [index] only. *)
Definition url_for (endpoint : string) : string :=
  if String.eqb endpoint "instagram_login_page" then "/login/instagram"
  else if String.eqb endpoint "index" then "/"
  else "/" +:+ endpoint.

Definition redirect (location : string) : response :=
  {| status := 302; resp_body := Redirect location |}.

Definition render_template (name : string) (args : gmap string pyval) : response :=
  {| status := 200; resp_body := Template name args |}.

(** Flask answers 500 when a view lets an exception escape. *)
Definition serve (view : M response) (w : world) : response * world :=
  match view w with
  | (Ret r, w') => (r, w')
  | (Raise _, w') => ({| status := 500; resp_body := ErrorPage |}, w')
  end.

(** ** Files *)

(** [os.path.exists(p)] and [Path(p).exists()]: the path is looked up as
    the string it is.  That [Path(p).exists()] may itself raise (a name the
    file system refuses) or answer for another spelling of the path is not
    modelled; statements that depend on its answer take the answer as a
    hypothesis. *)
Definition path_exists (p : string) : M bool :=
  gets (fun w => bool_decide (is_Some (files w !! p))).

(** [os.remove(p) if os.path.exists(p) else None]. *)
Definition remove_if_exists (p : string) : M unit :=
  e <- path_exists p ;;
  if e then modify (set_files (fun fs => delete p fs)) else ret tt.

(** ** The services outside the process *)

(** A part of a Gemini response and its inline blob. *)
Record blob : Type := MkBlob { blob_data : option string }.
Record part : Type := MkPart { inline_data : option blob }.

(** The image model's response: [candidates[0].content.parts] (evaluating
    it may raise) and [response.text]. *)
Record image_response : Type := MkImageResponse {
  ir_parts : outcome (list part);
  ir_text : option string
}.

(** Every answer may depend on the calls made so far.  [gemini_text] yields
    [response.text], which is [None] for a response without text. *)
Record services : Type := MkServices {
  gemini_text : list event -> string -> string -> outcome (option string);
  gemini_image : list event -> string -> string -> outcome image_response;
  pil_open : string -> outcome pil_image;
  pil_convert : pil_image -> string -> pil_image;
  strftime_now : list event -> string;
  ig_login : list event -> ig_client -> pyval -> pyval -> outcome bool * ig_client;
  ig_photo_upload : list event -> ig_client -> string -> pyval -> outcome unit;
  env_instagram_username : option string;
  env_instagram_password : option string
}.

(** ** Configuration *)

Definition OUTPUT_DIR : string := "static/generated_images".
Definition INSTAGRAM_SESSION_FILE : string := "instagrapi_session.json".
Definition KEY_USERNAME : string := "instagram_username".
Definition KEY_PASSWORD : string := "instagram_password".
Definition KEY_CURRENT : string := "last_generated_image_data".
Definition KEY_PREVIOUS : string := "last_generated_image_data_prev".

(** [os.path.join(a, b)] for a relative [b], with the POSIX separator. *)
Definition os_path_join (a b : string) : string := a +:+ "/" +:+ b.

(** The name Python prints for the type of a value. *)
Definition type_name (v : pyval) : string :=
  match v with
  | PNone => "NoneType"
  | PBool _ => "bool"
  | PInt _ => "int"
  | PStr _ => "str"
  | PList _ => "list"
  | PDict _ => "dict"
  end.

(** [data.get(k, dflt)] on whatever [request.get_json()] returned: only a
    dict has the method. *)
Definition py_get (data : pyval) (k : string) (dflt : pyval) : M pyval :=
  match data with
  | PDict d => ret (dict_get_default d k dflt)
  | _ => raise (MkExn AttributeError
                  ("'" +:+ type_name data +:+ "' object has no attribute 'get'"))
  end.

(** [Path(p)]: a string is taken as it is, anything else JSON can hold is
    refused. *)
Definition make_path (p : pyval) : M string :=
  match p with
  | PStr s => ret s
  | _ => raise (MkExn TypeError
                  ("expected str, bytes or os.PathLike object, not " +:+ type_name p))
  end.

(** The image data the loop of [generate_image] ends with: the data of the
    first part that has an inline blob. *)
Fixpoint first_inline_data (parts : list part) : option string :=
  match parts with
  | [] => None
  | p :: rest =>
      match inline_data p with
      | Some b => blob_data b
      | None => first_inline_data rest
      end
  end.

(** The dict [generate] builds. *)
Definition make_result (detailed_prompt : string) (image_url image_path : option string)
    (image_status : string) : gmap string pyval :=
  <["detailed_prompt" := PStr detailed_prompt]>
  (<["image_url" := of_opt_str image_url]>
  (<["image_path" := of_opt_str image_path]>
  (<["image_status" := PStr image_status]> ∅))).

(** ** The application *)

Section Application.

Variable env : services.

Definition call_text (model contents : string) : M (option string) :=
  fun w => (gemini_text env (log w) model contents,
            add_event (EvTextCall model contents) w).

Definition call_image (model contents : string) : M image_response :=
  fun w => (gemini_image env (log w) model contents,
            add_event (EvImageCall model contents) w).

(** [datetime.now().strftime('%Y%m%d_%H%M%S')]. *)
Definition now_stamp : M string :=
  fun w => (Ret (strftime_now env (log w)), add_event EvClock w).

(** [image.save(path)], taken to succeed; a [convert] or [save] that
    raises is not modelled, and statements about a failed generation say
    where the failure occurs. *)
Definition image_save (image : pil_image) (path : string) : M unit :=
  modify (set_files (fun fs => <[path := FImage image]> fs)).

(** [cl.load_settings(path)]. *)
Definition cl_load_settings (path : string) : M unit :=
  fun w =>
    match files w !! path with
    | Some (FSettings s) =>
        (Ret tt, set_cl {| cl_settings := s; cl_logged_in := cl_logged_in (cl w) |} w)
    | Some _ => (Raise (MkExn (LibraryError "JSONDecodeError") "Expecting value"), w)
    | None => (Raise (MkExn (LibraryError "FileNotFoundError") path), w)
    end.

(** [cl.dump_settings(path)]. *)
Definition cl_dump_settings (path : string) : M unit :=
  modify (fun w => set_files (fun fs => <[path := FSettings (cl_settings (cl w))]> fs) w).

(** [cl.login(username, password)]. *)
Definition cl_login (username password : pyval) : M bool :=
  fun w =>
    let r := ig_login env (log w) (cl w) username password in
    (fst r, set_cl (snd r) (add_event (EvLogin username password) w)).

(** [cl.photo_upload(path=..., caption=...)]. *)
Definition cl_photo_upload (path : string) (caption : pyval) : M unit :=
  fun w => (ig_photo_upload env (log w) (cl w) path caption,
            add_event (EvUpload path caption) w).

(** The f-string sent to the text model. *)
Definition prompt_text (user_input : string) : string :=
  nl +:+ "    Convert this short idea into a vivid, cinematic, and descriptive image prompt."
  +:+ nl +:+ "    Include artistic details like lighting, environment, and mood."
  +:+ nl +:+ "    Keep it under 60 words."
  +:+ nl +:+ nl +:+ "    User idea: " +:+ dquote +:+ user_input +:+ dquote
  +:+ nl +:+ "    ".

Definition generate_prompt (user_input : string) : M string :=
  try_except
    (text <- call_text "gemini-2.5-flash" (prompt_text user_input) ;;
     match text with
     | Some t => ret (strip t)
     | None => raise (MkExn AttributeError "'NoneType' object has no attribute 'strip'")
     end)
    (fun _ => ret user_input).

Definition generate_image (prompt : string) : M (option string * option string * string) :=
  try_except
    (response <- call_image "gemini-2.0-flash-preview-image-generation" prompt ;;
     parts <- lift (ir_parts response) ;;
     let image_data := first_inline_data parts in
     if negb (truthy (of_opt_str image_data)) then
       raise (MkExn ValueError
                ("No image data returned. Text response: " +:+ fmt_opt_str (ir_text response)))
     else
       opened <- lift (pil_open env (default "" image_data)) ;;
       let image :=
         if negb (String.eqb (img_mode opened) "RGB")
         then pil_convert env opened "RGB" else opened in
       stamp <- now_stamp ;;
       let image_filename := "generated_image_" +:+ stamp +:+ ".jpg" in
       let image_path := os_path_join OUTPUT_DIR image_filename in
       image_save image image_path ;;;
       let image_url := "/" +:+ OUTPUT_DIR +:+ "/" +:+ image_filename in
       ret (Some image_path, Some image_url, "Image generation successful!"))
    (fun e => ret (None, None, "Error generating image: " +:+ exn_str e)).

(** Lines 143-155 of [login_instagram]: the full login and its handler. *)
Definition full_login (username password : pyval) : M unit :=
  try_except
    (cl_login username password ;;;
     cl_dump_settings INSTAGRAM_SESSION_FILE)
    (fun e =>
       remove_if_exists INSTAGRAM_SESSION_FILE ;;;
       raise (MkExn ConnectionError ("Failed to log in to Instagram: " +:+ exn_str e))).

(** Lines 119-128: the credentials of the session, else those of [.env]. *)
Definition resolve_credentials : M (pyval * pyval) :=
  username <- session_get KEY_USERNAME ;;
  password <- session_get KEY_PASSWORD ;;
  if negb (truthy username) || negb (truthy password) then
    let username := of_opt_str (env_instagram_username env) in
    let password := of_opt_str (env_instagram_password env) in
    if negb (truthy username) || negb (truthy password) then
      raise (MkExn ValueError "Instagram credentials not found in session or .env file.")
    else ret (username, password)
  else ret (username, password).

(** Lines 131-136: the session file, when there is one, is loaded; a file
    that does not load is only reported. *)
Definition load_saved_session : M unit :=
  present <- path_exists INSTAGRAM_SESSION_FILE ;;
  if present then
    try_except (cl_load_settings INSTAGRAM_SESSION_FILE) (fun _ => ret tt)
  else ret tt.

Definition login_instagram : M unit :=
  creds <- resolve_credentials ;;
  load_saved_session ;;;
  logged_in <- gets (fun w => default (PBool false) (cl_logged_in (cl w))) ;;
  if truthy logged_in then ret tt
  else full_login (fst creds) (snd creds).

Definition post_to_instagram (image_path caption : pyval) : M bool :=
  full_image_path <- make_path image_path ;;
  present <- path_exists full_image_path ;;
  if negb present then ret false
  else
    try_except
      (login_instagram ;;;
       cl_photo_upload full_image_path caption ;;;
       ret true)
      (fun e =>
         match exn_cls e with
         | ConnectionError => ret false
         | _ => ret false
         end).

(** *** Routes *)

Definition index : M response :=
  username <- session_get KEY_USERNAME ;;
  if negb (truthy username) then ret (redirect (url_for "instagram_login_page"))
  else
    last_result <- session_get KEY_CURRENT ;;
    ret (render_template "index.html"
           (<["username" := username]> (<["last_result" := last_result]> ∅))).

Definition instagram_login_page : M response :=
  ret (render_template "instagram_login.html" ∅).

(** Lines 228-231 of [handle_instagram_login]: a throwaway [Client()] logs
    in and, when that returns, dumps its settings to the session file. *)
Definition verify_with_temp_client (username password : pyval) : M unit :=
  fun w =>
    let r := ig_login env (log w) fresh_client username password in
    let w1 := add_event (EvLogin username password) w in
    match fst r with
    | Ret _ =>
        (Ret tt,
         set_files (fun fs => <[INSTAGRAM_SESSION_FILE := FSettings (cl_settings (snd r))]> fs) w1)
    | Raise e => (Raise e, w1)
    end.

Definition handle_instagram_login (form : gmap string string) : M response :=
  let username := form !! "username" in
  let password := form !! "password" in
  if falsy_str username || falsy_str password then
    flash "Username and password are required." "error" ;;;
    ret (redirect (url_for "instagram_login_page"))
  else
    session_set KEY_USERNAME (of_opt_str username) ;;;
    session_set KEY_PASSWORD (of_opt_str password) ;;;
    try_except
      (verify_with_temp_client (of_opt_str username) (of_opt_str password) ;;;
       flash "Login successful! You can now generate and post images." "success" ;;;
       ret (redirect (url_for "index")))
      (fun e =>
         session_pop KEY_USERNAME ;;;
         session_pop KEY_PASSWORD ;;;
         session_pop KEY_CURRENT ;;;
         remove_if_exists INSTAGRAM_SESSION_FILE ;;;
         flash ("Login failed. Please check your credentials. Error: " +:+ exn_str e) "error" ;;;
         ret (redirect (url_for "instagram_login_page"))).

Definition logout : M response :=
  session_pop KEY_USERNAME ;;;
  session_pop KEY_PASSWORD ;;;
  session_pop KEY_CURRENT ;;;
  remove_if_exists INSTAGRAM_SESSION_FILE ;;;
  modify (set_cl fresh_client) ;;;
  flash "You have been logged out." "success" ;;;
  ret (redirect (url_for "instagram_login_page")).

(** Lines 288-291 of [generate]: the current slot moves to the previous
    one, the new result becomes current. *)
Definition record_success (result : pyval) : M unit :=
  previous <- session_get KEY_CURRENT ;;
  session_set KEY_PREVIOUS previous ;;;
  session_set KEY_CURRENT result.

Definition generate (form : gmap string string) : M response :=
  match form !! "idea" with
  | None | Some EmptyString =>
      ret (jsonify_status (PDict {["error" := PStr "Input cannot be empty."]}) 400)
  | Some user_idea =>
      detailed_prompt <- generate_prompt user_idea ;;
      generated <- generate_image detailed_prompt ;;
      let image_path := fst (fst generated) in
      let image_url := snd (fst generated) in
      let image_status := snd generated in
      let result := PDict (make_result detailed_prompt image_url image_path image_status) in
      (if truthy (of_opt_str image_path) && truthy (of_opt_str image_url) then
         record_success result
       else ret tt) ;;;
      ret (jsonify result)
  end.

Definition get_last_image : M response :=
  prev_result <- session_get KEY_PREVIOUS ;;
  if truthy prev_result then
    session_set KEY_CURRENT prev_result ;;;
    session_pop KEY_PREVIOUS ;;;
    ret (jsonify prev_result)
  else
    ret (jsonify_status (PDict {["error" := PStr "No previous image data found."]}) 404).

Definition post (data : pyval) : M response :=
  image_path <- py_get data "image_path" PNone ;;
  caption <- py_get data "caption" (PStr "Generated by Gemini API.") ;;
  logged <- session_has KEY_USERNAME ;;
  if negb logged then
    ret (jsonify_status
           (PDict (<["success" := PBool false]>
                   (<["message" := PStr "Please log in to Instagram first."]>
                   (<["redirect_to" := PStr (url_for "instagram_login_page")]> ∅))))
           401)
  else if negb (truthy image_path) then
    ret (jsonify_status
           (PDict (<["success" := PBool false]>
                   (<["message" := PStr "Image path is missing."]> ∅)))
           400)
  else
    posted <- post_to_instagram image_path caption ;;
    if posted : bool then
      ret (jsonify
             (PDict (<["success" := PBool true]>
                     (<["message" := PStr "Image posted to Instagram successfully!"]> ∅))))
    else
      ret (jsonify_status
             (PDict (<["success" := PBool false]>
                     (<["message" := PStr "Failed to post to Instagram. Check server logs for details or try logging out and back in."]> ∅)))
             500).

End Application.

(** ** Requests *)

(** The seven routes and what each request carries. *)
Inductive request : Type :=
| GetIndex
| GetLoginPage
| PostLoginSubmit (form : gmap string string)
| GetLogout
| PostGenerate (form : gmap string string)
| GetLastImage
| PostPost (data : pyval).

Definition route (env : services) (req : request) : M response :=
  match req with
  | GetIndex => index
  | GetLoginPage => instagram_login_page
  | PostLoginSubmit form => handle_instagram_login env form
  | GetLogout => logout
  | PostGenerate form => generate env form
  | GetLastImage => get_last_image
  | PostPost data => post env data
  end.

(** A [/generate] response reports a success when both [image_path] and
    [image_url] are true values: the test that guards [record_success]. *)
Definition reports_success (r : response) : bool :=
  match resp_body r with
  | Json (PDict d) =>
      truthy (dict_get d "image_path") && truthy (dict_get d "image_url")
  | _ => false
  end.

(** Does this request, served in this world, record a successful
    generation? *)
Definition records_success (env : services) (req : request) (w : world) : bool :=
  match req with
  | PostGenerate form => reports_success (fst (serve (generate env form) w))
  | _ => false
  end.

(** The world after a sequence of requests. *)
Fixpoint run (env : services) (reqs : list request) (w : world) : world :=
  match reqs with
  | [] => w
  | req :: rest => run env rest (snd (serve (route env req) w))
  end.

(** No request of the sequence records a successful generation. *)
Fixpoint no_success (env : services) (reqs : list request) (w : world) : bool :=
  match reqs with
  | [] => true
  | req :: rest =>
      negb (records_success env req w)
      && no_success env rest (snd (serve (route env req) w))
  end.

(** A slot of the undo buffer is empty when [session.get] yields [None]:
    the key is absent or holds [None]. *)
Definition slot_empty (w : world) (k : string) : Prop :=
  dict_get (session w) k = PNone.

(** The world [record_success] leaves. *)
Definition shift_in (result : pyval) (w : world) : world :=
  set_session
    (fun s => <[KEY_CURRENT := result]> (<[KEY_PREVIOUS := dict_get s KEY_CURRENT]> s)) w.

(** A computation leaves an observation of the world alone, whatever its
    outcome. *)
Definition frames {A X : Type} (obs : world → X) (m : M A) : Prop :=
  ∀ w, obs (snd (m w)) = obs w.

(** What the previous slot of the session holds. *)
Definition previous_slot (w : world) : option pyval := session w !! KEY_PREVIOUS.

(** The 404 of [/last_image]. *)
Definition not_found : response :=
  jsonify_status (PDict {["error" := PStr "No previous image data found."]}) 404.

(** The 400 of [/generate]. *)
Definition empty_input : response :=
  jsonify_status (PDict {["error" := PStr "Input cannot be empty."]}) 400.

(** The 401 of [/post]. *)
Definition unauthorized : response :=
  jsonify_status
    (PDict (<["success" := PBool false]>
            (<["message" := PStr "Please log in to Instagram first."]>
            (<["redirect_to" := PStr "/login/instagram"]> ∅))))
    401.

(** ** Concrete services and worlds *)

(** Services that answer: the text model pads its answer with blanks, the
    image model returns a text part and then a PNG, the clock advances with
    the calls made, Instagram accepts the login. *)
Definition services_up : services := {|
  gemini_text := fun _ _ _ => Ret (Some "  A tabby cat in a top hat, golden hour.  ");
  gemini_image := fun _ _ _ =>
    Ret {| ir_parts := Ret [ {| inline_data := None |};
                             {| inline_data := Some {| blob_data := Some "PNG-bytes" |} |} ];
           ir_text := Some "Here is your image." |};
  pil_open := fun data => Ret {| img_mode := "RGBA"; img_raster := data |};
  pil_convert := fun img mode => {| img_mode := mode; img_raster := img_raster img |};
  strftime_now := fun hist =>
    if (length hist <=? 2)%nat then "20251030_113543" else "20251030_113544";
  ig_login := fun _ c _ _ =>
    (Ret true, {| cl_settings := "authorization-data"; cl_logged_in := cl_logged_in c |});
  ig_photo_upload := fun _ _ _ _ => Ret tt;
  env_instagram_username := None;
  env_instagram_password := None
|}.

(** Services that are all unreachable. *)
Definition services_down : services := {|
  gemini_text := fun _ _ _ => Raise (MkExn (LibraryError "ServerError") "503 UNAVAILABLE");
  gemini_image := fun _ _ _ => Raise (MkExn (LibraryError "ServerError") "503 UNAVAILABLE");
  pil_open := fun _ => Raise (MkExn (LibraryError "UnidentifiedImageError") "cannot identify image file");
  pil_convert := fun img _ => img;
  strftime_now := fun _ => "20251030_113543";
  ig_login := fun _ c _ _ => (Raise (MkExn (LibraryError "BadPassword") "bad password"), c);
  ig_photo_upload := fun _ _ _ _ => Raise (MkExn (LibraryError "ClientError") "upload failed");
  env_instagram_username := None;
  env_instagram_password := None
|}.

(** The text model answers with an empty text; the rest is up. *)
Definition services_blank_text : services := {|
  gemini_text := fun _ _ _ => Ret (Some "");
  gemini_image := gemini_image services_up;
  pil_open := pil_open services_up;
  pil_convert := pil_convert services_up;
  strftime_now := strftime_now services_up;
  ig_login := ig_login services_up;
  ig_photo_upload := ig_photo_upload services_up;
  env_instagram_username := None;
  env_instagram_password := None
|}.

(** The text model answers, the image model is unreachable. *)
Definition services_image_down : services := {|
  gemini_text := gemini_text services_up;
  gemini_image := gemini_image services_down;
  pil_open := pil_open services_up;
  pil_convert := pil_convert services_up;
  strftime_now := strftime_now services_up;
  ig_login := ig_login services_up;
  ig_photo_upload := ig_photo_upload services_up;
  env_instagram_username := None;
  env_instagram_password := None
|}.

(** A browser that has never talked to the server, and a fresh process. *)
Definition world0 : world := {|
  session := ∅; flashes := []; files := ∅; cl := fresh_client; log := []
|}.

(** A browser whose user has logged in through the form. *)
Definition world_logged_in : world := {|
  session := <[KEY_USERNAME := PStr "alice"]> (<[KEY_PASSWORD := PStr "s3cret"]> ∅);
  flashes := [];
  files := <[INSTAGRAM_SESSION_FILE := FSettings "authorization-data"]> ∅;
  cl := fresh_client;
  log := []
|}.

Definition form_idea (idea : string) : gmap string string := {["idea" := idea]}.

(** The results of two generations in a row, served by [services_up]. *)
Definition result_A : gmap string pyval :=
  make_result "A tabby cat in a top hat, golden hour."
    (Some "/static/generated_images/generated_image_20251030_113543.jpg")
    (Some "static/generated_images/generated_image_20251030_113543.jpg")
    "Image generation successful!".

Definition result_B : gmap string pyval :=
  make_result "A tabby cat in a top hat, golden hour."
    (Some "/static/generated_images/generated_image_20251030_113544.jpg")
    (Some "static/generated_images/generated_image_20251030_113544.jpg")
    "Image generation successful!".

Definition world_one_image : world :=
  run services_up [PostGenerate (form_idea "a cat in a hat")] world_logged_in.

Definition world_two_images : world :=
  run services_up [PostGenerate (form_idea "a cat in a hat");
                   PostGenerate (form_idea "a dog in a scarf")] world_logged_in.

(** The session file after a failed attempt left garbage in it. *)
Definition world_stale_file : world := {|
  session := session world_logged_in;
  flashes := [];
  files := <[INSTAGRAM_SESSION_FILE := FRaw "{truncated"]> ∅;
  cl := fresh_client;
  log := []
|}.

(** ** Names for the rest of the pipeline *)

(** The two model names of [generate_prompt] and [generate_image]. *)
Definition TEXT_MODEL : string := "gemini-2.5-flash".
Definition IMAGE_MODEL : string := "gemini-2.0-flash-preview-image-generation".

(** Lines 98-99 of [generate_image]: an image that is not RGB is converted. *)
Definition normalize_rgb (env : services) (opened : pil_image) : pil_image :=
  if negb (String.eqb (img_mode opened) "RGB")
  then pil_convert env opened "RGB" else opened.

(** Lines 101-102: the path of the image saved at a given time stamp. *)
Definition image_path_of (stamp : string) : string :=
  os_path_join OUTPUT_DIR ("generated_image_" +:+ stamp +:+ ".jpg").

(** The world after the call to the image model. *)
Definition after_image_call (prompt : string) (w : world) : world :=
  add_event (EvImageCall IMAGE_MODEL prompt) w.

(** The message of the [ValueError] of line 95. *)
Definition no_image_data (text : option string) : string :=
  "No image data returned. Text response: " +:+ fmt_opt_str text.

(** The image model answers with a blob that carries no data, and only then
    with an image. *)
Definition services_empty_blob : services := {|
  gemini_text := gemini_text services_up;
  gemini_image := fun _ _ _ =>
    Ret {| ir_parts := Ret [ {| inline_data := None |};
                             {| inline_data := Some {| blob_data := None |} |};
                             {| inline_data := Some {| blob_data := Some "PNG-bytes" |} |} ];
           ir_text := None |};
  pil_open := pil_open services_up;
  pil_convert := pil_convert services_up;
  strftime_now := strftime_now services_up;
  ig_login := ig_login services_up;
  ig_photo_upload := ig_photo_upload services_up;
  env_instagram_username := None;
  env_instagram_password := None
|}.

(** The [ValueError] of line 128. *)
Definition credentials_not_found : exn :=
  MkExn ValueError "Instagram credentials not found in session or .env file.".

(** The flag [getattr(cl, 'logged_in', False)] reads. *)
Definition logged_in_flag (w : world) : pyval :=
  default (PBool false) (cl_logged_in (cl w)).

(** The caption [post] passes on: the one of the body, else the default. *)
Definition caption_of (d : gmap string pyval) : pyval :=
  dict_get_default d "caption" (PStr "Generated by Gemini API.").

(** The 400, the 200 and the 500 of [/post]. *)
Definition path_missing : response :=
  jsonify_status
    (PDict (<["success" := PBool false]>
            (<["message" := PStr "Image path is missing."]> ∅)))
    400.

Definition posted_ok : response :=
  jsonify
    (PDict (<["success" := PBool true]>
            (<["message" := PStr "Image posted to Instagram successfully!"]> ∅))).

Definition post_failed : response :=
  jsonify_status
    (PDict (<["success" := PBool false]>
            (<["message" := PStr "Failed to post to Instagram. Check server logs for details or try logging out and back in."]> ∅)))
    500.

(** [.env] provides a pair of credentials. *)
Definition services_env_credentials : services := {|
  gemini_text := gemini_text services_up;
  gemini_image := gemini_image services_up;
  pil_open := pil_open services_up;
  pil_convert := pil_convert services_up;
  strftime_now := strftime_now services_up;
  ig_login := ig_login services_up;
  ig_photo_upload := ig_photo_upload services_up;
  env_instagram_username := Some "bob";
  env_instagram_password := Some "hunter2"
|}.

(** Instagram accepts the login and refuses the upload. *)
Definition services_upload_down : services := {|
  gemini_text := gemini_text services_up;
  gemini_image := gemini_image services_up;
  pil_open := pil_open services_up;
  pil_convert := pil_convert services_up;
  strftime_now := strftime_now services_up;
  ig_login := ig_login services_up;
  ig_photo_upload := ig_photo_upload services_down;
  env_instagram_username := None;
  env_instagram_password := None
|}.

(** A session that kept the username and lost the password. *)
Definition world_half_credentials : world := {|
  session := <[KEY_USERNAME := PStr "alice"]> ∅;
  flashes := []; files := ∅; cl := fresh_client; log := []
|}.

(** A client that carries a true [logged_in] attribute. *)
Definition world_flagged : world := {|
  session := session world_logged_in;
  flashes := [];
  files := files world_logged_in;
  cl := {| cl_settings := ""; cl_logged_in := Some (PBool true) |};
  log := []
|}.

(** The form of the login page. *)
Definition login_form (username password : string) : gmap string string :=
  <["username" := username]> (<["password" := password]> ∅).

(** The page [index] renders. *)
Definition index_page (username last_result : pyval) : response :=
  render_template "index.html"
    (<["username" := username]> (<["last_result" := last_result]> ∅)).

(** ** The stand-alone script [instagrapi_check.py] *)

Module InstagrapiCheck.

(** The calls the script makes on its own [Client()]. *)
Inductive call : Type :=
| CallLogin (username password : string)
| CallUpload (path caption : string)
| CallLogout.

(** The client as the script sees it; [api_photo_upload] yields [media.pk]. *)
Record client_api : Type := MkApi {
  api_login : list call → string → string → outcome bool;
  api_photo_upload : list call → string → string → outcome string;
  api_logout : list call → outcome bool
}.

(** The paths that exist on disk and the calls made so far. *)
Record state : Type := MkState { disk : gset string; calls : list call }.

Definition record_call (c : call) (s : state) : state :=
  {| disk := disk s; calls := (calls s ++ [c])%list |}.

Definition SM (A : Type) : Type := state → outcome A * state.

Definition sret {A} (a : A) : SM A := fun s => (Ret a, s).

Definition sbind {A B} (m : SM A) (k : A → SM B) : SM B :=
  fun s =>
    match m s with
    | (Ret a, s') => k a s'
    | (Raise e, s') => (Raise e, s')
    end.

(** [try: m  except Exception as e: h e]. *)
Definition stry_except {A} (m : SM A) (h : exn → SM A) : SM A :=
  fun s =>
    match m s with
    | (Ret a, s') => (Ret a, s')
    | (Raise e, s') => h e s'
    end.

(** [try: m  finally: fin]: [fin] runs whatever [m] did, also after a
    [return]; when [fin] raises, its exception replaces the outcome. *)
Definition stry_finally {A B} (m : SM A) (fin : SM B) : SM A :=
  fun s =>
    match m s with
    | (o, s') =>
        match fin s' with
        | (Ret _, s'') => (o, s'')
        | (Raise e, s'') => (Raise e, s'')
        end
    end.

Section Script.

Variable api : client_api.

Definition login (username password : string) : SM bool :=
  fun s => (api_login api (calls s) username password,
            record_call (CallLogin username password) s).

Definition photo_upload (path caption : string) : SM string :=
  fun s => (api_photo_upload api (calls s) path caption,
            record_call (CallUpload path caption) s).

Definition logout : SM bool :=
  fun s => (api_logout api (calls s), record_call CallLogout s).

(** [Path(image_path).exists()]. *)
Definition path_exists (image_path : string) : SM bool :=
  fun s => (Ret (bool_decide (image_path ∈ disk s)), s).

Definition post_picture_to_instagram
    (username password image_path caption : string) : SM bool :=
  stry_finally
    (stry_except
       (sbind (login username password) (fun _ =>
        sbind (path_exists image_path) (fun present =>
        if negb present then sret false
        else
          sbind (photo_upload image_path caption) (fun _media =>
          sret true))))
       (fun _ => sret false))
    logout.

End Script.

(** Instagram accepts everything. *)
Definition api_up : client_api := {|
  api_login := fun _ _ _ => Ret true;
  api_photo_upload := fun _ _ _ => Ret "3752001";
  api_logout := fun _ => Ret true
|}.

(** The login is refused, and the logout of a client that never logged in
    raises. *)
Definition api_login_down : client_api := {|
  api_login := fun _ _ _ => Raise (MkExn (LibraryError "BadPassword") "bad password");
  api_photo_upload := fun _ _ _ => Ret "3752001";
  api_logout := fun _ => Raise (MkExn (LibraryError "LoginRequired") "login_required")
|}.

Definition state0 : state :=
  {| disk := {[ "static/generated_images/a.jpg" ]}; calls := [] |}.

End InstagrapiCheck.

(** ** More concrete requests *)

Definition cat_path : string :=
  "static/generated_images/generated_image_20251030_113543.jpg".

Definition cat_prompt : string := "A tabby cat in a top hat, golden hour.".

Definition world_three_images : world :=
  run services_up [PostGenerate (form_idea "an owl at dusk")] world_two_images.

(** A body that asks to post the first image with a caption of its own. *)
Definition post_body : gmap string pyval :=
  <["image_path" := PStr cat_path]> (<["caption" := PStr "hello"]> ∅).

(** A body whose [image_path] is a number. *)
Definition post_body_number : gmap string pyval :=
  <["image_path" := PInt 5]> ∅.

(** Lines 78-97 of [generate_image] fail: the call to the image model
    raises, the parts of the response cannot be read, the first inline blob
    carries no data, or [Image.open] raises. *)
Definition fails_by_open (env : services) (prompt : string) (w : world) : Prop :=
  match gemini_image env (log w) IMAGE_MODEL prompt with
  | Raise _ => True
  | Ret resp =>
      match ir_parts resp with
      | Raise _ => True
      | Ret parts =>
          truthy (of_opt_str (first_inline_data parts)) = false
          ∨ ∃ e, pil_open env (default "" (first_inline_data parts)) = Raise e
      end
  end.

(** The image model returns the prompt it was given as the bytes of an RGB
    image, and the clock stands still: two different images within one
    second. *)
Definition services_echo_same_second : services := {|
  gemini_text := gemini_text services_up;
  gemini_image := fun _ _ contents =>
    Ret {| ir_parts := Ret [ {| inline_data := Some {| blob_data := Some contents |} |} ];
           ir_text := None |};
  pil_open := fun data => Ret {| img_mode := "RGB"; img_raster := data |};
  pil_convert := pil_convert services_up;
  strftime_now := fun _ => "20251030_113543";
  ig_login := ig_login services_up;
  ig_photo_upload := ig_photo_upload services_up;
  env_instagram_username := None;
  env_instagram_password := None
|}.

(** The bytes [Image.open] cannot read. *)
Definition services_bad_bytes : services := {|
  gemini_text := gemini_text services_up;
  gemini_image := gemini_image services_up;
  pil_open := pil_open services_down;
  pil_convert := pil_convert services_up;
  strftime_now := strftime_now services_up;
  ig_login := ig_login services_up;
  ig_photo_upload := ig_photo_upload services_up;
  env_instagram_username := None;
  env_instagram_password := None
|}.

(** * Properties *)

(** ** The two service-facing steps of [/generate] *)

Section Pipeline.

Context (env : services).

(** [generate_prompt] makes one call to the text model and always returns. *)
Lemma generate_prompt_total (idea : string) (w : world) :
  ∃ dp, generate_prompt env idea w
        = (Ret dp, add_event (EvTextCall "gemini-2.5-flash" (prompt_text idea)) w).
Proof.
  unfold generate_prompt, try_except, bind, call_text.
  destruct (gemini_text env (log w) "gemini-2.5-flash" (prompt_text idea)) as [[t|]|e];
    unfold ret, raise; eauto.
Qed.

(** The steps of [generate_image] never touch the session. *)
Lemma generate_image_total (prompt : string) (w : world) :
  ∃ path url st w',
    generate_image env prompt w = (Ret (path, url, st), w')
    ∧ session w' = session w
    ∧ ((path = None ∧ url = None
        ∧ ∃ e, st = "Error generating image: " +:+ exn_str e)
       ∨ (∃ stamp,
            path = Some (os_path_join OUTPUT_DIR ("generated_image_" +:+ stamp +:+ ".jpg"))
            ∧ url = Some ("/" +:+ OUTPUT_DIR +:+ "/" +:+ ("generated_image_" +:+ stamp +:+ ".jpg"))
            ∧ st = "Image generation successful!")).
Proof.
  unfold generate_image, try_except, bind, call_image, lift.
  destruct (gemini_image env (log w) _ prompt) as [resp|e].
  2:{ unfold ret. do 4 eexists. split; [reflexivity|]. split; [reflexivity|].
      left. eauto. }
  destruct (ir_parts resp) as [parts|e].
  2:{ unfold ret. do 4 eexists. split; [reflexivity|]. split; [reflexivity|].
      left. eauto. }
  destruct (negb (truthy (of_opt_str (first_inline_data parts)))).
  { unfold raise, ret. do 4 eexists. split; [reflexivity|]. split; [reflexivity|].
    left. split; [reflexivity|]. split; [reflexivity|].
    eexists (MkExn _ _). reflexivity. }
  destruct (pil_open env (default "" (first_inline_data parts))) as [img|e].
  2:{ unfold ret. do 4 eexists. split; [reflexivity|]. split; [reflexivity|].
      left. eauto. }
  unfold now_stamp, image_save, modify, ret.
  do 4 eexists. split; [reflexivity|]. split; [reflexivity|].
  right. eexists. split; [reflexivity|]. split; reflexivity.
Qed.

(** When the call to the image model raises, [generate_image] returns its
    error triple. *)
Lemma generate_image_service_error (prompt : string) (w : world) (e : exn) :
  gemini_image env (log w) "gemini-2.0-flash-preview-image-generation" prompt = Raise e →
  generate_image env prompt w
  = (Ret (None, None, "Error generating image: " +:+ exn_str e),
     add_event (EvImageCall "gemini-2.0-flash-preview-image-generation" prompt) w).
Proof.
  intros H. unfold generate_image, try_except, bind, call_image. rewrite H.
  reflexivity.
Qed.

Lemma record_success_eq (result : pyval) (w : world) :
  record_success result w = (Ret tt, shift_in result w).
Proof. reflexivity. Qed.

(** One equation for [/generate] with a non-empty idea. *)
Lemma generate_nonempty (form : gmap string string) (idea : string) (w : world) :
  form !! "idea" = Some idea → idea ≠ "" →
  ∃ dp path url st w2,
    generate_image env dp (add_event (EvTextCall "gemini-2.5-flash" (prompt_text idea)) w)
    = (Ret (path, url, st), w2)
    ∧ session w2 = session w
    ∧ generate_prompt env idea w
      = (Ret dp, add_event (EvTextCall "gemini-2.5-flash" (prompt_text idea)) w)
    ∧ generate env form w
      = (Ret (jsonify (PDict (make_result dp url path st))),
         if truthy (of_opt_str path) && truthy (of_opt_str url)
         then shift_in (PDict (make_result dp url path st)) w2
         else w2).
Proof.
  intros Hform Hne.
  destruct (generate_prompt_total idea w) as [dp Hdp].
  destruct (generate_image_total dp
              (add_event (EvTextCall "gemini-2.5-flash" (prompt_text idea)) w))
    as (path & url & st & w2 & Himg & Hses & _).
  exists dp, path, url, st, w2. split; [exact Himg|]. split; [exact Hses|].
  split; [exact Hdp|].
  unfold generate. rewrite Hform.
  destruct idea as [|c rest]; [congruence|].
  unfold bind. rewrite Hdp, Himg. cbn [fst snd].
  destruct (truthy (of_opt_str path) && truthy (of_opt_str url)).
  - rewrite record_success_eq. reflexivity.
  - reflexivity.
Qed.

End Pipeline.

(** ** The undo buffer *)

Section UndoBuffer.

Context (env : services).

Lemma make_result_lookup (dp : string) (url path : option string) (st : string) :
  make_result dp url path st !! "detailed_prompt" = Some (PStr dp)
  ∧ make_result dp url path st !! "image_url" = Some (of_opt_str url)
  ∧ make_result dp url path st !! "image_path" = Some (of_opt_str path)
  ∧ make_result dp url path st !! "image_status" = Some (PStr st).
Proof. unfold make_result. repeat split; by simplify_map_eq. Qed.

(** A dict with a key is a true value. *)
Lemma truthy_dict_lookup (d : gmap string pyval) (k : string) (v : pyval) :
  d !! k = Some v → truthy (PDict d) = true.
Proof.
  intros Hk. cbn [truthy]. destruct (size d) eqn:Hsz; [|reflexivity].
  apply map_size_empty_inv in Hsz. subst d. by rewrite lookup_empty in Hk.
Qed.

Lemma reports_success_make_result (dp : string) (url path : option string) (st : string) :
  reports_success (jsonify (PDict (make_result dp url path st)))
  = truthy (of_opt_str path) && truthy (of_opt_str url).
Proof.
  destruct (make_result_lookup dp url path st) as (_ & Hu & Hp & _).
  unfold reports_success, jsonify, dict_get. cbn [resp_body].
  by rewrite Hu, Hp.
Qed.

(** Every return of [/generate] is a 400 with the world untouched, or the
    result dict with the session shifted exactly when the result reports a
    success. *)
Lemma generate_session (form : gmap string string) (w : world) :
  generate env form w = (Ret empty_input, w)
  ∨ ∃ dp url path st w',
      generate env form w = (Ret (jsonify (PDict (make_result dp url path st))), w')
      ∧ session w'
        = if reports_success (jsonify (PDict (make_result dp url path st)))
          then <[KEY_CURRENT := PDict (make_result dp url path st)]>
                 (<[KEY_PREVIOUS := dict_get (session w) KEY_CURRENT]> (session w))
          else session w.
Proof.
  destruct (form !! "idea") as [idea|] eqn:Hform.
  2:{ left. unfold generate. by rewrite Hform. }
  destruct (decide (idea = "")) as [->|Hne].
  { left. unfold generate. by rewrite Hform. }
  right.
  destruct (generate_nonempty env form idea w Hform Hne)
    as (dp & path & url & st & w2 & _ & Hses & _ & Hgen).
  exists dp, url, path, st. eexists. split; [exact Hgen|].
  rewrite reports_success_make_result.
  destruct (truthy (of_opt_str path) && truthy (of_opt_str url)).
  - unfold shift_in, set_session. cbn [session]. by rewrite Hses.
  - exact Hses.
Qed.

(** A reported success shifts the buffer. *)
Lemma generate_success (form : gmap string string) (w w' : world) (d : gmap string pyval) :
  generate env form w = (Ret (jsonify (PDict d)), w') →
  reports_success (jsonify (PDict d)) = true →
  session w' = <[KEY_CURRENT := PDict d]>
                 (<[KEY_PREVIOUS := dict_get (session w) KEY_CURRENT]> (session w))
  ∧ truthy (PDict d) = true.
Proof.
  intros Hgen Hok.
  destruct (generate_session form w) as [H400 | (dp & url & path & st & w1 & Hres & Hses)].
  - rewrite H400 in Hgen. discriminate Hgen.
  - rewrite Hres in Hgen. injection Hgen as Hd Hw. subst w1.
    rewrite Hd in Hses. rewrite Hok in Hses. split; [exact Hses|].
    rewrite <- Hd.
    destruct (make_result_lookup dp url path st) as (Hdp & _).
    eapply truthy_dict_lookup, Hdp.
Qed.

(** Anything else leaves the session as it was. *)
Lemma generate_no_success (form : gmap string string) (w : world) :
  reports_success (fst (serve (generate env form) w)) = false →
  session (snd (serve (generate env form) w)) = session w.
Proof.
  unfold serve.
  destruct (generate_session form w) as [H400 | (dp & url & path & st & w1 & Hres & Hses)].
  - rewrite H400. reflexivity.
  - rewrite Hres. cbn [fst snd]. intros Hno. by rewrite Hno in Hses.
Qed.

(** [/last_image] on a buffer whose previous slot holds a true value. *)
Lemma get_last_image_some (w : world) (v : pyval) :
  dict_get (session w) KEY_PREVIOUS = v → truthy v = true →
  get_last_image w
  = (Ret (jsonify v),
     set_session (fun s => dict_pop (<[KEY_CURRENT := v]> s) KEY_PREVIOUS) w).
Proof.
  intros Hv Ht. unfold get_last_image, bind, session_get, gets.
  rewrite Hv, Ht. reflexivity.
Qed.

(** [/last_image] on a buffer whose previous slot holds no true value. *)
Lemma get_last_image_none (w : world) :
  truthy (dict_get (session w) KEY_PREVIOUS) = false →
  get_last_image w = (Ret not_found, w).
Proof.
  intros Ht. unfold get_last_image, bind, session_get, gets.
  rewrite Ht. reflexivity.
Qed.

(** C1. Starting from any buffer state, two consecutive successful
    [/generate] calls that produce the results [A] and then [B] leave the
    buffer with current = [B] and previous = [A]; a following [GET
    /last_image] answers [A] with status 200 and leaves current = [A] and the
    previous slot absent. *)
Theorem undo_shift_and_pop
    (form1 form2 : gmap string string) (w0 w1 w2 : world) (A B : gmap string pyval) :
  generate env form1 w0 = (Ret (jsonify (PDict A)), w1) →
  reports_success (jsonify (PDict A)) = true →
  generate env form2 w1 = (Ret (jsonify (PDict B)), w2) →
  reports_success (jsonify (PDict B)) = true →
  session w2 !! KEY_CURRENT = Some (PDict B)
  ∧ session w2 !! KEY_PREVIOUS = Some (PDict A)
  ∧ ∃ w3, serve get_last_image w2 = (jsonify (PDict A), w3)
          ∧ session w3 !! KEY_CURRENT = Some (PDict A)
          ∧ session w3 !! KEY_PREVIOUS = None.
Proof.
  intros HA HokA HB HokB.
  destruct (generate_success _ _ _ _ HA HokA) as [Hs1 HtA].
  destruct (generate_success _ _ _ _ HB HokB) as [Hs2 _].
  assert (Hcur1 : dict_get (session w1) KEY_CURRENT = PDict A).
  { unfold dict_get. rewrite Hs1. by rewrite lookup_insert_eq. }
  rewrite Hcur1 in Hs2.
  assert (Hprev2 : session w2 !! KEY_PREVIOUS = Some (PDict A)).
  { rewrite Hs2. rewrite lookup_insert_ne by done. by rewrite lookup_insert_eq. }
  split; [rewrite Hs2; by rewrite lookup_insert_eq|].
  split; [exact Hprev2|].
  eexists. unfold serve.
  rewrite (get_last_image_some w2 (PDict A)); [|unfold dict_get; by rewrite Hprev2|exact HtA].
  split; [reflexivity|].
  unfold set_session, dict_pop. cbn [session]. split.
  - rewrite lookup_delete_ne by done. by rewrite lookup_insert_eq.
  - by rewrite lookup_delete_eq.
Qed.

End UndoBuffer.

(** ** What a computation leaves alone *)

Section Frames.

Context {X : Type} (obs : world → X).

Lemma frames_ret {A} (a : A) : frames obs (ret a).
Proof. by intros w. Qed.

Lemma frames_raise {A} (e : exn) : frames obs (@raise A e).
Proof. by intros w. Qed.

Lemma frames_lift {A} (o : outcome A) : frames obs (lift o).
Proof. by intros w. Qed.

Lemma frames_gets {A} (f : world → A) : frames obs (gets f).
Proof. by intros w. Qed.

Lemma frames_modify (g : world → world) :
  (∀ w, obs (g w) = obs w) → frames obs (modify g).
Proof. intros Hg w. apply Hg. Qed.

Lemma frames_bind {A B} (m : M A) (k : A → M B) :
  frames obs m → (∀ a, frames obs (k a)) → frames obs (bind m k).
Proof.
  intros Hm Hk w. unfold bind. specialize (Hm w).
  destruct (m w) as [[a|e] w1]; cbn [snd] in *.
  - by rewrite Hk.
  - exact Hm.
Qed.

Lemma frames_try {A} (m : M A) (h : exn → M A) :
  frames obs m → (∀ e, frames obs (h e)) → frames obs (try_except m h).
Proof.
  intros Hm Hh w. unfold try_except. specialize (Hm w).
  destruct (m w) as [[a|e] w1]; cbn [snd] in *.
  - exact Hm.
  - by rewrite Hh.
Qed.

Lemma frames_if {A} (b : bool) (m1 m2 : M A) :
  frames obs m1 → frames obs m2 → frames obs (if b then m1 else m2).
Proof. by destruct b. Qed.

End Frames.

Create HintDb frames.
#[local] Hint Resolve frames_ret frames_raise frames_lift frames_gets
  frames_bind frames_try frames_if : frames.

Lemma snd_serve (view : M response) (w : world) : snd (serve view w) = snd (view w).
Proof. unfold serve. by destruct (view w) as [[r|e] w']. Qed.

Lemma bind_ret_step {A B} (m : M A) (k : A → M B) (w w' : world) (a : A) :
  m w = (Ret a, w') → bind m k w = k a w'.
Proof. intros Hm. unfold bind. by rewrite Hm. Qed.

Lemma bind_raise_step {A B} (m : M A) (k : A → M B) (w w' : world) (e : exn) :
  m w = (Raise e, w') → bind m k w = (Raise e, w').
Proof. intros Hm. unfold bind. by rewrite Hm. Qed.

Lemma try_ret_step {A} (m : M A) (h : exn → M A) (w w' : world) (a : A) :
  m w = (Ret a, w') → try_except m h w = (Ret a, w').
Proof. intros Hm. unfold try_except. by rewrite Hm. Qed.

Lemma try_raise_step {A} (m : M A) (h : exn → M A) (w w' : world) (e : exn) :
  m w = (Raise e, w') → try_except m h w = h e w'.
Proof. intros Hm. unfold try_except. by rewrite Hm. Qed.

(** *** The session is written by the routes only *)

Section SessionFrame.

Context (env : services).

Lemma frames_session_path_exists (p : string) : frames session (path_exists p).
Proof. apply frames_gets. Qed.

Lemma frames_session_remove (p : string) : frames session (remove_if_exists p).
Proof.
  unfold remove_if_exists. apply frames_bind; [apply frames_gets|].
  intros []; [by apply frames_modify | apply frames_ret].
Qed.

Lemma frames_session_flash_free_calls :
  (∀ m c, frames session (call_text env m c))
  ∧ (∀ m c, frames session (call_image env m c))
  ∧ (∀ u p, frames session (cl_login env u p))
  ∧ (∀ p c, frames session (cl_photo_upload env p c))
  ∧ (∀ p, frames session (cl_load_settings p))
  ∧ (∀ p, frames session (cl_dump_settings p))
  ∧ (∀ u p, frames session (verify_with_temp_client env u p)).
Proof.
  repeat split; intros; intros w; try reflexivity.
  - unfold cl_load_settings. by destruct (files w !! p) as [[]|].
  - unfold verify_with_temp_client. by destruct (fst (ig_login env _ _ _ _)).
Qed.

Lemma frames_session_login_instagram : frames session (login_instagram env).
Proof.
  destruct frames_session_flash_free_calls as (_ & _ & Hlogin & _ & Hload & Hdump & _).
  unfold login_instagram.
  apply frames_bind.
  { unfold resolve_credentials, session_get.
    apply frames_bind; [apply frames_gets|]. intros username.
    apply frames_bind; [apply frames_gets|]. intros password.
    repeat apply frames_if; auto with frames. }
  intros creds. apply frames_bind.
  { unfold load_saved_session.
    apply frames_bind; [apply frames_session_path_exists|]. intros present.
    apply frames_if; [|apply frames_ret].
    apply frames_try; [apply Hload|]. intros _. apply frames_ret. }
  intros _. apply frames_bind; [apply frames_gets|]. intros logged_in.
  apply frames_if; [apply frames_ret|].
  unfold full_login. apply frames_try.
  - apply frames_bind; [apply Hlogin|]. intros _. apply Hdump.
  - intros e. apply frames_bind; [apply frames_session_remove|]. intros _.
    apply frames_raise.
Qed.

Lemma frames_session_post_to_instagram (image_path caption : pyval) :
  frames session (post_to_instagram env image_path caption).
Proof.
  destruct frames_session_flash_free_calls as (_ & _ & _ & Hup & _).
  unfold post_to_instagram. apply frames_bind.
  { unfold make_path. destruct image_path; auto with frames. }
  intros p. apply frames_bind; [apply frames_gets|]. intros present.
  apply frames_if; [apply frames_ret|].
  apply frames_try.
  - apply frames_bind; [apply frames_session_login_instagram|]. intros _.
    apply frames_bind; [apply Hup|]. intros _. apply frames_ret.
  - intros e. destruct (exn_cls e); apply frames_ret.
Qed.

Lemma frames_session_post (data : pyval) : frames session (post env data).
Proof.
  unfold post, py_get, session_has.
  apply frames_bind; [destruct data; auto with frames|]. intros image_path.
  apply frames_bind; [destruct data; auto with frames|]. intros caption.
  apply frames_bind; [apply frames_gets|]. intros logged.
  apply frames_if; [apply frames_ret|].
  apply frames_if; [apply frames_ret|].
  apply frames_bind; [apply frames_session_post_to_instagram|].
  intros []; apply frames_ret.
Qed.

(** The two routes that pop keys never name the previous slot. *)
Lemma frames_previous_session_set (k : string) (v : pyval) :
  k ≠ KEY_PREVIOUS → frames previous_slot (session_set k v).
Proof.
  intros Hk. apply frames_modify. intros w.
  unfold previous_slot, set_session. cbn [session]. by rewrite lookup_insert_ne.
Qed.

Lemma frames_previous_session_pop (k : string) :
  k ≠ KEY_PREVIOUS → frames previous_slot (session_pop k).
Proof.
  intros Hk. apply frames_modify. intros w.
  unfold previous_slot, set_session, dict_pop. cbn [session].
  by rewrite lookup_delete_ne.
Qed.

Lemma frames_previous_of_session {A} (m : M A) :
  frames session m → frames previous_slot m.
Proof. intros Hm w. unfold previous_slot. by rewrite Hm. Qed.

Lemma frames_previous_logout : frames previous_slot logout.
Proof.
  unfold logout.
  apply frames_bind; [by apply frames_previous_session_pop|]. intros _.
  apply frames_bind; [by apply frames_previous_session_pop|]. intros _.
  apply frames_bind; [by apply frames_previous_session_pop|]. intros _.
  apply frames_bind; [apply frames_previous_of_session, frames_session_remove|].
  intros _.
  apply frames_bind; [apply frames_modify; by intros w|]. intros _.
  apply frames_bind; [apply frames_modify; by intros w|]. intros _.
  apply frames_ret.
Qed.

Lemma frames_previous_login_submit (form : gmap string string) :
  frames previous_slot (handle_instagram_login env form).
Proof.
  destruct frames_session_flash_free_calls as (_ & _ & _ & _ & _ & _ & Hverify).
  assert (Hflash : ∀ m c, frames previous_slot (flash m c)).
  { intros m c. apply frames_modify. by intros w. }
  unfold handle_instagram_login.
  apply frames_if.
  { apply frames_bind; [apply Hflash|]. intros _. apply frames_ret. }
  apply frames_bind; [by apply frames_previous_session_set|]. intros _.
  apply frames_bind; [by apply frames_previous_session_set|]. intros _.
  apply frames_try.
  - apply frames_bind; [apply frames_previous_of_session, Hverify|]. intros _.
    apply frames_bind; [apply Hflash|]. intros _. apply frames_ret.
  - intros e.
    apply frames_bind; [by apply frames_previous_session_pop|]. intros _.
    apply frames_bind; [by apply frames_previous_session_pop|]. intros _.
    apply frames_bind; [by apply frames_previous_session_pop|]. intros _.
    apply frames_bind; [apply frames_previous_of_session, frames_session_remove|].
    intros _.
    apply frames_bind; [apply Hflash|]. intros _. apply frames_ret.
Qed.

End SessionFrame.

(** ** Popping, failing and rejecting *)

Section UndoBufferRequests.

Context (env : services).

Lemma slot_empty_previous (w w' : world) :
  previous_slot w' = previous_slot w →
  slot_empty w KEY_PREVIOUS → slot_empty w' KEY_PREVIOUS.
Proof.
  unfold slot_empty, dict_get, previous_slot. by intros ->.
Qed.

(** A pop on an empty previous slot: 404, and nothing moves. *)
Lemma pop_on_empty (w : world) :
  slot_empty w KEY_PREVIOUS → serve get_last_image w = (not_found, w).
Proof.
  intros Hempty. unfold serve. rewrite get_last_image_none; [reflexivity|].
  unfold slot_empty in Hempty. by rewrite Hempty.
Qed.

(** A pop that answers 200 leaves the previous slot absent. *)
Lemma pop_clears_previous (w0 w : world) (r : response) :
  serve get_last_image w0 = (r, w) → status r = 200 →
  session w !! KEY_PREVIOUS = None.
Proof.
  intros Hpop Hok. unfold serve in Hpop.
  destruct (truthy (dict_get (session w0) KEY_PREVIOUS)) eqn:Ht.
  - rewrite (get_last_image_some w0 _ eq_refl Ht) in Hpop.
    injection Hpop as _ <-. unfold set_session, dict_pop. cbn [session].
    by rewrite lookup_delete_eq.
  - rewrite (get_last_image_none w0 Ht) in Hpop. injection Hpop as <- _.
    discriminate Hok.
Qed.

(** Only a [/generate] that records a success can fill an empty previous
    slot. *)
Lemma route_keeps_previous_empty (req : request) (w : world) :
  records_success env req w = false →
  slot_empty w KEY_PREVIOUS →
  slot_empty (snd (serve (route env req) w)) KEY_PREVIOUS.
Proof.
  intros Hno Hempty. rewrite snd_serve.
  destruct req as [| |form| |form| |data]; cbn [route].
  - unfold index, bind, session_get, gets.
    by destruct (negb (truthy (dict_get (session w) KEY_USERNAME))).
  - exact Hempty.
  - eapply slot_empty_previous; [apply frames_previous_login_submit|exact Hempty].
  - eapply slot_empty_previous; [apply frames_previous_logout|exact Hempty].
  - cbn [records_success] in Hno. apply generate_no_success in Hno.
    rewrite snd_serve in Hno.
    eapply slot_empty_previous; [|exact Hempty].
    unfold previous_slot. by rewrite Hno.
  - rewrite <- snd_serve. by rewrite pop_on_empty.
  - eapply slot_empty_previous; [|exact Hempty].
    apply frames_previous_of_session, frames_session_post.
Qed.

Lemma run_keeps_previous_empty (reqs : list request) (w : world) :
  no_success env reqs w = true →
  slot_empty w KEY_PREVIOUS →
  slot_empty (run env reqs w) KEY_PREVIOUS.
Proof.
  revert w. induction reqs as [|req rest IH]; intros w Hno Hempty; [exact Hempty|].
  cbn [no_success] in Hno. apply andb_true_iff in Hno as [Hreq Hrest].
  apply negb_true_iff in Hreq. cbn [run].
  apply IH; [exact Hrest|]. by apply route_keeps_previous_empty.
Qed.

(** C2. (1) On every buffer whose previous slot is empty, [GET /last_image]
    answers the 404 JSON error and leaves the world as it was.  (2) From
    such a buffer, after any sequence of requests none of which records a
    successful generation (further pops included), the previous slot is
    still empty and the pop fails again without changing anything.  (3) A
    pop that answered 200 leaves the previous slot absent, so (2) applies to
    the world it leaves: a second pop fails until a new success is
    recorded. *)
Theorem pop_previous_empty_fails :
  (∀ w, slot_empty w KEY_PREVIOUS → serve get_last_image w = (not_found, w))
  ∧ (∀ w reqs,
       slot_empty w KEY_PREVIOUS → no_success env reqs w = true →
       slot_empty (run env reqs w) KEY_PREVIOUS
       ∧ serve get_last_image (run env reqs w) = (not_found, run env reqs w))
  ∧ (∀ w0 r w reqs,
       serve get_last_image w0 = (r, w) → status r = 200 →
       no_success env reqs w = true →
       session w !! KEY_PREVIOUS = None
       ∧ serve get_last_image (run env reqs w) = (not_found, run env reqs w)).
Proof.
  split; [exact pop_on_empty|]. split.
  - intros w reqs Hempty Hno.
    pose proof (run_keeps_previous_empty reqs w Hno Hempty) as Hrun.
    split; [exact Hrun|]. by apply pop_on_empty.
  - intros w0 r w reqs Hpop Hok Hno.
    pose proof (pop_clears_previous w0 w r Hpop Hok) as Hnone.
    split; [exact Hnone|].
    apply pop_on_empty, run_keeps_previous_empty; [exact Hno|].
    unfold slot_empty, dict_get. by rewrite Hnone.
Qed.

(** C3. For every buffer state, a [/generate] call with a non-empty idea
    whose image generation returns its error triple leaves the session, and
    with it the current and the previous slot, exactly as before the call. *)
Theorem failed_generation_keeps_buffer
    (form : gmap string string) (idea dp st : string) (w w1 w2 : world) :
  form !! "idea" = Some idea → idea ≠ "" →
  generate_prompt env idea w = (Ret dp, w1) →
  generate_image env dp w1 = (Ret (None, None, st), w2) →
  session (snd (serve (generate env form) w)) = session w
  ∧ session (snd (serve (generate env form) w)) !! KEY_CURRENT = session w !! KEY_CURRENT
  ∧ session (snd (serve (generate env form) w)) !! KEY_PREVIOUS = session w !! KEY_PREVIOUS.
Proof.
  intros Hform Hne Hdp Himg.
  assert (Hses : session (snd (serve (generate env form) w)) = session w).
  { destruct (generate_nonempty env form idea w Hform Hne)
      as (dp' & path & url & st' & w2' & Himg' & Hses & Hdp' & Hgen).
    rewrite Hdp in Hdp'. injection Hdp' as Edp Ew. subst dp' w1.
    rewrite Himg in Himg'. injection Himg' as Epath Eurl Est Ew. subst path url st' w2'.
    unfold serve. rewrite Hgen. cbn [snd of_opt_str truthy andb]. exact Hses. }
  by rewrite Hses.
Qed.

(** C4. [POST /generate] whose form has no [idea] field, or an empty one,
    answers 400 and leaves the whole world as it was: the session (both
    slots of the undo buffer) is not written and the log of outside calls
    gains no entry, so neither the text model nor the image model is
    called. *)
Theorem generate_empty_idea_rejected (form : gmap string string) (w : world) :
  falsy_str (form !! "idea") = true →
  serve (generate env form) w = (empty_input, w)
  ∧ status (fst (serve (generate env form) w)) = 400
  ∧ session (snd (serve (generate env form) w)) = session w
  ∧ log (snd (serve (generate env form) w)) = log w.
Proof.
  intros Hfalsy.
  assert (Hgen : serve (generate env form) w = (empty_input, w)).
  { unfold serve, generate.
    destruct (form !! "idea") as [[|c rest]|]; [reflexivity|discriminate Hfalsy|reflexivity]. }
  rewrite Hgen. by repeat split.
Qed.

End UndoBufferRequests.

(** ** Posting and logging in *)

Section Posting.

Context (env : services).

(** C5, as the code has it. For every request to [POST /post] whose JSON
    body is an object and whose browser session has no [instagram_username]
    key, the response is the 401 JSON error whatever the object contains,
    and the world is left as it was: no login and no upload is attempted. *)
Theorem post_without_login_unauthorized (d : gmap string pyval) (w : world) :
  session w !! KEY_USERNAME = None →
  serve (post env (PDict d)) w = (unauthorized, w)
  ∧ status (fst (serve (post env (PDict d)) w)) = 401
  ∧ log (snd (serve (post env (PDict d)) w)) = log w.
Proof.
  intros Hnone.
  assert (Hpost : serve (post env (PDict d)) w = (unauthorized, w)).
  { unfold serve, post, py_get, bind, ret, session_has, gets. rewrite Hnone.
    rewrite bool_decide_false; [reflexivity|]. by intros [v Hv]. }
  rewrite Hpost. by repeat split.
Qed.

(** The full login: what it returns and what it leaves on disk. *)
Lemma full_login_cases (u p : pyval) (w : world) :
  match ig_login env (log w) (cl w) u p with
  | (Raise e, _) =>
      ∃ w', full_login env u p w
            = (Raise (MkExn ConnectionError
                        ("Failed to log in to Instagram: " +:+ exn_str e)), w')
            ∧ files w' !! INSTAGRAM_SESSION_FILE = None
  | (Ret _, c) =>
      ∃ w', full_login env u p w = (Ret tt, w')
            ∧ files w' !! INSTAGRAM_SESSION_FILE = Some (FSettings (cl_settings c))
            ∧ cl w' = c
  end.
Proof.
  unfold full_login.
  destruct (ig_login env (log w) (cl w) u p) as [[b|e] c] eqn:Hlogin.
  - assert (Hcl : cl_login env u p w
                  = (Ret b, set_cl c (add_event (EvLogin u p) w))).
    { unfold cl_login. by rewrite Hlogin. }
    eexists. split.
    + apply try_ret_step. rewrite (bind_ret_step _ _ _ _ _ Hcl). reflexivity.
    + unfold set_files, set_cl. cbn [files cl].
      split; [by rewrite lookup_insert_eq|reflexivity].
  - set (w1 := set_cl c (add_event (EvLogin u p) w)).
    assert (Hbody : (cl_login env u p ;;; cl_dump_settings INSTAGRAM_SESSION_FILE) w
                    = (Raise e, w1)).
    { eapply bind_raise_step. unfold cl_login. rewrite Hlogin. reflexivity. }
    rewrite (try_raise_step _ _ _ _ _ Hbody).
    unfold remove_if_exists, path_exists, bind, gets, raise.
    destruct (bool_decide (is_Some (files w1 !! INSTAGRAM_SESSION_FILE))) eqn:Hex.
    + eexists. split; [reflexivity|].
      unfold set_files. cbn [files]. by rewrite lookup_delete_eq.
    + eexists. split; [reflexivity|].
      apply bool_decide_eq_false in Hex. by apply eq_None_not_Some.
Qed.

(** C6. When [login_instagram] has credentials and the client is not
    flagged as logged in after the saved session was loaded, it performs the
    full login.  If that login raises [e], [login_instagram] raises a
    [ConnectionError] built from [e] and no session file is left on disk; if
    it returns, [login_instagram] returns and the session file holds the
    settings of the client. *)
Theorem login_failure_deletes_session_file (w w1 : world) (u p : pyval) :
  resolve_credentials env w = (Ret (u, p), w) →
  load_saved_session w = (Ret tt, w1) →
  truthy (default (PBool false) (cl_logged_in (cl w1))) = false →
  match ig_login env (log w1) (cl w1) u p with
  | (Raise e, _) =>
      ∃ w', login_instagram env w
            = (Raise (MkExn ConnectionError
                        ("Failed to log in to Instagram: " +:+ exn_str e)), w')
            ∧ files w' !! INSTAGRAM_SESSION_FILE = None
  | (Ret _, c) =>
      ∃ w', login_instagram env w = (Ret tt, w')
            ∧ files w' !! INSTAGRAM_SESSION_FILE = Some (FSettings (cl_settings c))
            ∧ cl w' = c
  end.
Proof.
  intros Hcreds Hload Hflag.
  unfold login_instagram.
  rewrite (bind_ret_step _ _ _ _ _ Hcreds), (bind_ret_step _ _ _ _ _ Hload).
  rewrite (bind_ret_step (gets _) _ w1 w1 _ eq_refl), Hflag.
  pose proof (full_login_cases u p w1) as Hfull.
  destruct (ig_login env (log w1) (cl w1) u p) as [[b|e] c]; exact Hfull.
Qed.

(** What [/logout] does remove: the credentials and the current slot leave
    the session, every other key stays, the session file is gone and the
    global client is a fresh one. *)
Lemma logout_effect (w : world) :
  let w' := snd (serve logout w) in
  fst (serve logout w) = redirect "/login/instagram"
  ∧ session w' = delete KEY_CURRENT (delete KEY_PASSWORD (delete KEY_USERNAME (session w)))
  ∧ files w' !! INSTAGRAM_SESSION_FILE = None
  ∧ cl w' = fresh_client.
Proof.
  unfold serve, logout, bind, session_pop, modify, remove_if_exists, path_exists,
    gets, bind, flash, modify, ret.
  cbn [files set_session].
  destruct (bool_decide (is_Some (files w !! INSTAGRAM_SESSION_FILE))) eqn:Hex;
    cbn [fst snd session files cl set_flashes set_cl set_files set_session].
  - repeat split. by rewrite lookup_delete_eq.
  - repeat split. apply bool_decide_eq_false in Hex. by apply eq_None_not_Some.
Qed.

End Posting.

(** ** Expanding the idea and answering [/generate] *)

Lemma lstrip_empty_iff (s : string) : lstrip s = "" ↔ has_nonspace s = false.
Proof.
  induction s as [|c s IH]; cbn [lstrip has_nonspace]; [done|].
  destruct (isspace c); cbn [negb orb]; [exact IH|]. split; discriminate.
Qed.

Lemma lstrip_head (s : string) (c : ascii) (r : string) :
  lstrip s = String c r → isspace c = false.
Proof.
  induction s as [|c' s IH]; cbn [lstrip]; [discriminate|].
  destruct (isspace c') eqn:Hc'; [exact IH|].
  intros [= -> _]. exact Hc'.
Qed.

Lemma rstrip_head_nonspace (c : ascii) (r : string) :
  isspace c = false → rstrip (String c r) ≠ "".
Proof.
  intros Hc. cbn [rstrip]. rewrite Hc. by destruct (rstrip r).
Qed.

(** [strip] leaves something exactly when the text has a character that is
    not whitespace. *)
Lemma strip_nonempty_iff (s : string) : strip s ≠ "" ↔ has_nonspace s = true.
Proof.
  unfold strip. destruct (lstrip s) as [|c r] eqn:Hl.
  - apply lstrip_empty_iff in Hl. rewrite Hl. cbn [rstrip]. split; [done|discriminate].
  - split.
    + intros _. destruct (has_nonspace s) eqn:Hn; [reflexivity|].
      apply lstrip_empty_iff in Hn. congruence.
    + intros _. eapply rstrip_head_nonspace, lstrip_head, Hl.
Qed.

Section Generation.

Context (env : services).

(** C7, as the code has it. [generate_prompt] never raises.  When the call
    to the text model raises, or its response has no text, the result is the
    idea itself, so a non-empty idea gives a non-empty result.  When the
    call returns a text, the result is that text stripped, which is
    non-empty exactly when the text holds a character that is not
    whitespace. *)
Theorem generate_prompt_fallback (idea : string) (w : world) :
  ∃ s w',
    generate_prompt env idea w = (Ret s, w')
    ∧ match gemini_text env (log w) "gemini-2.5-flash" (prompt_text idea) with
      | Raise _ | Ret None => s = idea ∧ (idea ≠ "" → s ≠ "")
      | Ret (Some t) => s = strip t ∧ (s ≠ "" ↔ has_nonspace t = true)
      end.
Proof.
  unfold generate_prompt, try_except, bind, call_text.
  destruct (gemini_text env (log w) "gemini-2.5-flash" (prompt_text idea)) as [[t|]|e];
    unfold ret, raise; do 2 eexists; (split; [reflexivity|]).
  - split; [reflexivity|]. apply strip_nonempty_iff.
  - by split.
  - by split.
Qed.

Lemma error_status_contains_error (msg : string) :
  "Error generating image: " +:+ msg ≠ ""
  ∧ str_contains "Error" ("Error generating image: " +:+ msg) = true.
Proof. split; [discriminate|reflexivity]. Qed.

(** C9. When [POST /generate] carries a non-empty idea and the call to the
    image model raises, the response is JSON whose [image_url] is null and
    whose [image_status] is a non-empty string that contains "Error". *)
Theorem generate_image_failure_response
    (form : gmap string string) (idea dp : string) (w w1 : world) (e : exn) :
  form !! "idea" = Some idea → idea ≠ "" →
  generate_prompt env idea w = (Ret dp, w1) →
  gemini_image env (log w1) "gemini-2.0-flash-preview-image-generation" dp = Raise e →
  ∃ d st,
    resp_body (fst (serve (generate env form) w)) = Json (PDict d)
    ∧ d !! "image_url" = Some PNone
    ∧ d !! "image_status" = Some (PStr st)
    ∧ st ≠ ""
    ∧ str_contains "Error" st = true.
Proof.
  intros Hform Hne Hdp Hraise.
  destruct (generate_nonempty env form idea w Hform Hne)
    as (dp' & path & url & st & w2 & Himg & _ & Hdp' & Hgen).
  rewrite Hdp in Hdp'. injection Hdp' as Edp Ew. subst dp'.
  rewrite <- Ew in Himg.
  rewrite (generate_image_service_error env dp w1 e Hraise) in Himg.
  injection Himg as Epath Eurl Est _. subst path url st.
  unfold serve. rewrite Hgen. cbn [fst resp_body jsonify].
  destruct (make_result_lookup dp None None ("Error generating image: " +:+ exn_str e))
    as (_ & Hurl & _ & Hst).
  do 2 eexists. split; [reflexivity|]. split; [exact Hurl|]. split; [exact Hst|].
  apply error_status_contains_error.
Qed.

Lemma make_result_dom (dp : string) (url path : option string) (st : string) :
  dom (make_result dp url path st)
  = ({[ "detailed_prompt"; "image_url"; "image_path"; "image_status" ]} : gset string).
Proof.
  unfold make_result. rewrite !dom_insert_L, dom_empty_L. set_solver.
Qed.

(** C10. Every response of [POST /generate] with a non-empty idea has
    status 200 and a JSON object with exactly the keys [detailed_prompt],
    [image_url], [image_path] and [image_status].  Either the generation
    failed, [image_url] and [image_path] are null and the status string
    starts with "Error generating image: ", or it succeeded, both are
    non-empty strings and the status string is the success message; the
    status code is 200 in both cases. *)
Theorem generate_always_200 (form : gmap string string) (idea : string) (w : world) :
  form !! "idea" = Some idea → idea ≠ "" →
  ∃ d w',
    serve (generate env form) w = ({| status := 200; resp_body := Json (PDict d) |}, w')
    ∧ dom d = ({[ "detailed_prompt"; "image_url"; "image_path"; "image_status" ]} : gset string)
    ∧ ((d !! "image_url" = Some PNone
        ∧ d !! "image_path" = Some PNone
        ∧ ∃ e, d !! "image_status" = Some (PStr ("Error generating image: " +:+ exn_str e)))
       ∨ (∃ path url,
            d !! "image_url" = Some (PStr url)
            ∧ d !! "image_path" = Some (PStr path)
            ∧ url ≠ "" ∧ path ≠ ""
            ∧ d !! "image_status" = Some (PStr "Image generation successful!"))).
Proof.
  intros Hform Hne.
  destruct (generate_nonempty env form idea w Hform Hne)
    as (dp & path & url & st & w2 & Himg & _ & _ & Hgen).
  destruct (generate_image_total env dp
              (add_event (EvTextCall "gemini-2.5-flash" (prompt_text idea)) w))
    as (path' & url' & st' & w2' & Himg' & _ & Hcase).
  rewrite Himg in Himg'. injection Himg' as Epath Eurl Est _. subst path' url' st'.
  do 2 eexists. split; [unfold serve; rewrite Hgen; reflexivity|].
  split; [apply make_result_dom|].
  destruct (make_result_lookup dp url path st) as (_ & Hurl & Hpath & Hst).
  destruct Hcase as [(-> & -> & e & ->) | (stamp & -> & -> & ->)].
  - left. split; [exact Hurl|]. split; [exact Hpath|]. by exists e.
  - right. do 2 eexists. split; [exact Hurl|]. split; [exact Hpath|].
    split; [discriminate|]. split; [discriminate|exact Hst].
Qed.

End Generation.

(** ** The properties on concrete requests *)

(** Two generations served by [services_up], then a pop. *)
Lemma undo_shift_and_pop_witness :
  session world_two_images !! KEY_CURRENT = Some (PDict result_B)
  ∧ session world_two_images !! KEY_PREVIOUS = Some (PDict result_A)
  ∧ ∃ w3, serve get_last_image world_two_images = (jsonify (PDict result_A), w3)
          ∧ session w3 !! KEY_CURRENT = Some (PDict result_A)
          ∧ session w3 !! KEY_PREVIOUS = None.
Proof.
  apply (undo_shift_and_pop services_up
           (form_idea "a cat in a hat") (form_idea "a dog in a scarf")
           world_logged_in world_one_image world_two_images result_A result_B);
    vm_compute; reflexivity.
Defined.

(** A pop in a fresh browser; pops after one generation, whose previous
    slot holds [None]; pops after a pop that succeeded. *)
Lemma pop_previous_empty_fails_witness :
  serve get_last_image world0 = (not_found, world0)
  ∧ (let reqs := [GetLastImage; PostGenerate (form_idea ""); GetLogout; GetLastImage] in
     session world_one_image !! KEY_PREVIOUS = Some PNone
     ∧ serve get_last_image (run services_image_down reqs world_one_image)
       = (not_found, run services_image_down reqs world_one_image))
  ∧ (let w := snd (serve get_last_image world_two_images) in
     let reqs := [PostGenerate (form_idea "a cat in a hat"); GetLastImage] in
     status (fst (serve get_last_image world_two_images)) = 200
     ∧ session w !! KEY_PREVIOUS = None
     ∧ serve get_last_image (run services_image_down reqs w)
       = (not_found, run services_image_down reqs w)).
Proof.
  destruct (pop_previous_empty_fails services_image_down) as (Hempty & Hseq & Hpop).
  split; [apply Hempty; vm_compute; reflexivity|]. split.
  - split; [vm_compute; reflexivity|].
    apply Hseq; vm_compute; reflexivity.
  - split; [vm_compute; reflexivity|].
    apply (Hpop world_two_images (fst (serve get_last_image world_two_images)));
      vm_compute; reflexivity.
Defined.

(** The image model is unreachable while the buffer holds two results. *)
Lemma failed_generation_keeps_buffer_witness :
  let w := world_two_images in
  let form := form_idea "a cat in a hat" in
  session (snd (serve (generate services_image_down form) w)) = session w
  ∧ session (snd (serve (generate services_image_down form) w)) !! KEY_CURRENT
    = Some (PDict result_B)
  ∧ session (snd (serve (generate services_image_down form) w)) !! KEY_PREVIOUS
    = Some (PDict result_A).
Proof.
  pose proof (failed_generation_keeps_buffer services_image_down
                (form_idea "a cat in a hat") "a cat in a hat"
                "A tabby cat in a top hat, golden hour."
                "Error generating image: 503 UNAVAILABLE"
                world_two_images
                (snd (generate_prompt services_image_down "a cat in a hat" world_two_images))
                (snd (generate_image services_image_down
                        "A tabby cat in a top hat, golden hour."
                        (snd (generate_prompt services_image_down "a cat in a hat"
                                world_two_images))))) as H.
  destruct H as (Hs & Hc & Hp); [vm_compute; reflexivity | discriminate
                                | vm_compute; reflexivity | vm_compute; reflexivity |].
  split; [exact Hs|]. split.
  - rewrite Hc. vm_compute. reflexivity.
  - rewrite Hp. vm_compute. reflexivity.
Defined.

(** An empty [idea] field, and a form without the field. *)
Lemma generate_empty_idea_rejected_witness :
  falsy_str (form_idea "" !! "idea") = true
  ∧ falsy_str ((∅ : gmap string string) !! "idea") = true
  ∧ serve (generate services_up (form_idea "")) world_two_images
    = (empty_input, world_two_images)
  ∧ status (fst (serve (generate services_up ∅) world_two_images)) = 400
  ∧ log (snd (serve (generate services_up ∅) world_two_images)) = log world_two_images.
Proof.
  split; [vm_compute; reflexivity|]. split; [vm_compute; reflexivity|].
  destruct (generate_empty_idea_rejected services_up (form_idea "") world_two_images)
    as (H1 & _); [vm_compute; reflexivity|].
  destruct (generate_empty_idea_rejected services_up ∅ world_two_images)
    as (_ & H2 & _ & H3); [vm_compute; reflexivity|].
  split; [exact H1|]. split; [exact H2|exact H3].
Defined.

(** C5, the claim as stated fails: a JSON body that is [null] reaches
    [data.get] before the session is looked at, the [AttributeError] escapes
    the view and the response is a 500. *)
Lemma post_without_login_null_body :
  session world0 !! KEY_USERNAME = None
  ∧ fst (post services_up PNone world0)
    = Raise (MkExn AttributeError "'NoneType' object has no attribute 'get'")
  ∧ status (fst (serve (post services_up PNone) world0)) = 500
  ∧ status (fst (serve (post services_up PNone) world0)) ≠ 401.
Proof.
  split; [reflexivity|]. split; [reflexivity|]. split; [reflexivity|discriminate].
Qed.

(** A well-formed body sent by a browser that never logged in. *)
Lemma post_without_login_unauthorized_witness :
  let d : gmap string pyval :=
    <["image_path" := PStr "static/generated_images/generated_image_20251030_113543.jpg"]>
      (<["caption" := PStr "hello"]> ∅) in
  session world0 !! KEY_USERNAME = None
  ∧ serve (post services_up (PDict d)) world0 = (unauthorized, world0)
  ∧ status (fst (serve (post services_up (PDict d)) world0)) = 401
  ∧ log (snd (serve (post services_up (PDict d)) world0)) = log world0.
Proof.
  intros d. split; [reflexivity|].
  apply (post_without_login_unauthorized services_up d world0). reflexivity.
Defined.

(** A stale session file on disk: Instagram refuses the login, then accepts
    it. *)
Lemma login_failure_deletes_session_file_witness :
  (files world_stale_file !! INSTAGRAM_SESSION_FILE = Some (FRaw "{truncated")
   ∧ ∃ w', login_instagram services_down world_stale_file
           = (Raise (MkExn ConnectionError
                       "Failed to log in to Instagram: bad password"), w')
           ∧ files w' !! INSTAGRAM_SESSION_FILE = None)
  ∧ (∃ w', login_instagram services_up world_stale_file = (Ret tt, w')
           ∧ files w' !! INSTAGRAM_SESSION_FILE = Some (FSettings "authorization-data")
           ∧ cl w' = {| cl_settings := "authorization-data"; cl_logged_in := None |}).
Proof.
  split; [split; [vm_compute; reflexivity|]|].
  - apply (login_failure_deletes_session_file services_down
             world_stale_file world_stale_file (PStr "alice") (PStr "s3cret"));
      vm_compute; reflexivity.
  - apply (login_failure_deletes_session_file services_up
             world_stale_file world_stale_file (PStr "alice") (PStr "s3cret"));
      vm_compute; reflexivity.
Defined.

(** The text model is unreachable: the idea comes back. *)
Lemma generate_prompt_fallback_witness :
  ∃ s w',
    generate_prompt services_down "a cat in a hat" world0 = (Ret s, w')
    ∧ s = "a cat in a hat" ∧ s ≠ "".
Proof.
  destruct (generate_prompt_fallback services_down "a cat in a hat" world0)
    as (s & w' & Hrun & Hs & Hne).
  exists s, w'. split; [exact Hrun|]. split; [exact Hs|].
  apply Hne. discriminate.
Defined.

(** C7, the claim as stated fails: the text model answers a non-empty idea
    with an empty text, and [generate_prompt] returns the empty string. *)
Lemma generate_prompt_blank_text :
  "a cat in a hat" ≠ ""
  ∧ gemini_text services_blank_text [] "gemini-2.5-flash" (prompt_text "a cat in a hat")
    = Ret (Some "")
  ∧ fst (generate_prompt services_blank_text "a cat in a hat" world0) = Ret "".
Proof.
  split; [discriminate|]. split; reflexivity.
Qed.

(** C8, where the code departs from the claim: after two generations the
    previous slot holds the first result; [/logout] pops the credentials and
    the current slot but not the previous one, so the session still holds
    image data, and the next [GET /last_image] serves it and puts it back
    into the current slot. *)
Lemma logout_keeps_previous_image :
  let w := snd (serve logout world_two_images) in
  session world_two_images !! KEY_PREVIOUS = Some (PDict result_A)
  ∧ session w !! KEY_USERNAME = None
  ∧ session w !! KEY_PASSWORD = None
  ∧ session w !! KEY_CURRENT = None
  ∧ session w !! KEY_PREVIOUS = Some (PDict result_A)
  ∧ session w ≠ ∅
  ∧ fst (serve get_last_image w) = jsonify (PDict result_A)
  ∧ session (snd (serve get_last_image w)) !! KEY_CURRENT = Some (PDict result_A).
Proof.
  assert (Hprev : session (snd (serve logout world_two_images)) !! KEY_PREVIOUS
                  = Some (PDict result_A)) by (vm_compute; reflexivity).
  cbv zeta. repeat split; try (vm_compute; reflexivity); try exact Hprev.
  intros Hempty. rewrite Hempty in Hprev. by rewrite lookup_empty in Hprev.
Qed.

(** The scenario of the idea "a cat in a hat" with the image model down. *)
Lemma generate_image_failure_response_witness :
  ∃ d st,
    resp_body (fst (serve (generate services_image_down (form_idea "a cat in a hat")) world0))
    = Json (PDict d)
    ∧ d !! "image_url" = Some PNone
    ∧ d !! "image_status" = Some (PStr st)
    ∧ st ≠ ""
    ∧ str_contains "Error" st = true.
Proof.
  apply (generate_image_failure_response services_image_down
           (form_idea "a cat in a hat") "a cat in a hat"
           "A tabby cat in a top hat, golden hour." world0
           (snd (generate_prompt services_image_down "a cat in a hat" world0))
           (MkExn (LibraryError "ServerError") "503 UNAVAILABLE"));
    [vm_compute; reflexivity | discriminate | vm_compute; reflexivity
    | vm_compute; reflexivity].
Defined.

(** The same idea with every service up. *)
Lemma generate_always_200_witness :
  ∃ d w',
    serve (generate services_up (form_idea "a cat in a hat")) world0
    = ({| status := 200; resp_body := Json (PDict d) |}, w')
    ∧ dom d = ({[ "detailed_prompt"; "image_url"; "image_path"; "image_status" ]} : gset string)
    ∧ ((d !! "image_url" = Some PNone
        ∧ d !! "image_path" = Some PNone
        ∧ ∃ e, d !! "image_status" = Some (PStr ("Error generating image: " +:+ exn_str e)))
       ∨ (∃ path url,
            d !! "image_url" = Some (PStr url)
            ∧ d !! "image_path" = Some (PStr path)
            ∧ url ≠ "" ∧ path ≠ ""
            ∧ d !! "image_status" = Some (PStr "Image generation successful!"))).
Proof.
  apply (generate_always_200 services_up (form_idea "a cat in a hat") "a cat in a hat" world0);
    [vm_compute; reflexivity | discriminate].
Defined.

(** * Further properties of the code *)

(** ** [generate_image] *)

Section ImageGeneration.

Context (env : services).

(** The loop of [generate_image] stops at the first part with an inline
    blob. *)
Lemma first_inline_data_first_blob (pre post : list part) (p : part) (b : blob) :
  Forall (λ q, inline_data q = None) pre →
  inline_data p = Some b →
  first_inline_data (pre ++ p :: post) = blob_data b.
Proof.
  intros Hpre Hp. induction Hpre as [|q pre Hq _ IH]; cbn [app first_inline_data].
  - by rewrite Hp.
  - by rewrite Hq.
Qed.

(** Every run of [generate_image]: the error triple with nothing but the
    call logged, or the success triple with the clock read and one file
    written. *)
Lemma generate_image_detail (prompt : string) (w : world) :
  (∃ e, generate_image env prompt w
        = (Ret (None, None, "Error generating image: " +:+ exn_str e),
           after_image_call prompt w))
  ∨ (∃ opened,
       generate_image env prompt w
       = (Ret (Some (image_path_of (strftime_now env (log (after_image_call prompt w)))),
               Some ("/" +:+ image_path_of (strftime_now env (log (after_image_call prompt w)))),
               "Image generation successful!"),
          set_files
            (λ fs, <[image_path_of (strftime_now env (log (after_image_call prompt w)))
                     := FImage (normalize_rgb env opened)]> fs)
            (add_event EvClock (after_image_call prompt w)))).
Proof.
  unfold generate_image, try_except, bind, call_image, lift, after_image_call.
  destruct (gemini_image env (log w) _ prompt) as [resp|e]; [|left; by exists e].
  destruct (ir_parts resp) as [parts|e]; [|left; by exists e].
  destruct (negb (truthy (of_opt_str (first_inline_data parts)))).
  { left. by eexists (MkExn _ _). }
  destruct (pil_open env (default "" (first_inline_data parts))) as [opened|e];
    [|left; by exists e].
  right. by exists opened.
Qed.

(** X1. Whenever [generate_image] returns a path, the path is
    [static/generated_images/generated_image_<stamp>.jpg] for the time stamp
    read after the model call, the URL is the path behind a slash, the
    status is the success message, the file at the path holds an image and
    no other file has changed. *)
Theorem generate_image_success_shape
    (prompt path : string) (url : option string) (st : string) (w w' : world) :
  generate_image env prompt w = (Ret (Some path, url, st), w') →
  path = image_path_of (strftime_now env (log (after_image_call prompt w)))
  ∧ url = Some ("/" +:+ path)
  ∧ st = "Image generation successful!"
  ∧ (∃ img, files w' = <[path := FImage img]> (files w))
  ∧ log w' = (log w ++ [EvImageCall IMAGE_MODEL prompt; EvClock])%list.
Proof.
  intros Hrun.
  destruct (generate_image_detail prompt w) as [[e He] | [opened Hok]].
  - rewrite He in Hrun. discriminate Hrun.
  - rewrite Hok in Hrun. injection Hrun as <- <- <- <-.
    split; [reflexivity|]. split; [reflexivity|]. split; [reflexivity|].
    split; [by eexists|].
    unfold after_image_call, set_files, add_event. cbn [log].
    by rewrite <- (assoc_L (++)).
Qed.

(** X2. When [generate_image] fails at or before [Image.open] (the call to
    the image model raises, the parts of the response cannot be read, the
    first inline blob carries no data, or the bytes do not open as an
    image), it returns the error triple with no path and no URL, no file is
    written, removed or changed, and the clock is not read: the call to the
    image model is the only outside call made.  A [convert] or [save] that
    raises is not covered. *)
Theorem generate_image_early_failure_writes_nothing (prompt : string) (w : world) :
  fails_by_open env prompt w →
  ∃ e w',
    generate_image env prompt w
    = (Ret (None, None, "Error generating image: " +:+ exn_str e), w')
    ∧ files w' = files w
    ∧ log w' = (log w ++ [EvImageCall IMAGE_MODEL prompt])%list.
Proof.
  unfold fails_by_open, generate_image, try_except, bind, call_image, lift.
  fold IMAGE_MODEL.
  destruct (gemini_image env (log w) IMAGE_MODEL prompt) as [resp|e].
  2:{ intros _. exists e. by eexists. }
  destruct (ir_parts resp) as [parts|e].
  2:{ intros _. exists e. by eexists. }
  intros [Hnone | [e Hopen]].
  - rewrite Hnone. cbn [negb]. eexists (MkExn _ _). by eexists.
  - destruct (negb (truthy (of_opt_str (first_inline_data parts)))).
    + eexists (MkExn _ _). by eexists.
    + rewrite Hopen. exists e. by eexists.
Qed.

(** X3. When the first part of the response that has an inline blob carries
    no data ([None] or empty bytes), [generate_image] fails with the
    [ValueError] message that quotes the response text, whatever the later
    parts carry. *)
Theorem generate_image_first_blob_decides
    (prompt : string) (w : world) (resp : image_response)
    (pre post : list part) (p : part) (b : blob) :
  gemini_image env (log w) IMAGE_MODEL prompt = Ret resp →
  ir_parts resp = Ret (pre ++ p :: post)%list →
  Forall (λ q, inline_data q = None) pre →
  inline_data p = Some b →
  truthy (of_opt_str (blob_data b)) = false →
  generate_image env prompt w
  = (Ret (None, None, "Error generating image: " +:+ no_image_data (ir_text resp)),
     after_image_call prompt w).
Proof.
  intros Hcall Hparts Hpre Hp Hdata.
  unfold generate_image, try_except, bind, call_image, lift.
  fold IMAGE_MODEL. rewrite Hcall, Hparts.
  rewrite (first_inline_data_first_blob pre post p b Hpre Hp), Hdata.
  reflexivity.
Qed.

(** X4. Two generations that both succeed and read the same time stamp
    return the same path, and the last write wins: after the first call the
    file there holds the image decoded from the first response, after the
    second call it holds the image decoded from the second response, and
    apart from that one file the disk is as before the first call. *)
Theorem generate_image_same_second_overwrites
    (p1 p2 path1 path2 : string) (u1 u2 : option string) (s1 s2 : string)
    (w w1 w2 : world) (resp1 resp2 : image_response) (parts1 parts2 : list part)
    (d1 d2 : string) (o1 o2 : pil_image) :
  generate_image env p1 w = (Ret (Some path1, u1, s1), w1) →
  generate_image env p2 w1 = (Ret (Some path2, u2, s2), w2) →
  strftime_now env (log (after_image_call p1 w))
  = strftime_now env (log (after_image_call p2 w1)) →
  gemini_image env (log w) IMAGE_MODEL p1 = Ret resp1 →
  ir_parts resp1 = Ret parts1 → first_inline_data parts1 = Some d1 →
  pil_open env d1 = Ret o1 →
  gemini_image env (log w1) IMAGE_MODEL p2 = Ret resp2 →
  ir_parts resp2 = Ret parts2 → first_inline_data parts2 = Some d2 →
  pil_open env d2 = Ret o2 →
  path2 = path1
  ∧ files w1 !! path1 = Some (FImage (normalize_rgb env o1))
  ∧ files w2 !! path1 = Some (FImage (normalize_rgb env o2))
  ∧ files w2 = <[path1 := FImage (normalize_rgb env o2)]> (files w).
Proof.
  intros H1 H2 Hstamp Hc1 Hp1 Hd1 Ho1 Hc2 Hp2 Hd2 Ho2.
  assert (Hrun : ∀ p w0 resp parts d o,
            gemini_image env (log w0) IMAGE_MODEL p = Ret resp →
            ir_parts resp = Ret parts → first_inline_data parts = Some d →
            pil_open env d = Ret o →
            ∀ path u st w', generate_image env p w0 = (Ret (Some path, u, st), w') →
            path = image_path_of (strftime_now env (log (after_image_call p w0)))
            ∧ files w' = <[path := FImage (normalize_rgb env o)]> (files w0)).
  { intros p w0 resp parts d o Hc Hp Hd Ho path u st w' Hgen.
    unfold generate_image, try_except, bind, call_image, lift in Hgen.
    fold IMAGE_MODEL in Hgen. rewrite Hc, Hp, Hd in Hgen.
    cbn [default from_option id] in Hgen. rewrite Ho in Hgen.
    destruct (negb (truthy (of_opt_str (Some d)))); [discriminate Hgen|].
    unfold now_stamp, image_save, modify, ret in Hgen.
    injection Hgen as Epath _ _ Ew. subst path w'. split; reflexivity. }
  destruct (Hrun p1 w resp1 parts1 d1 o1 Hc1 Hp1 Hd1 Ho1 _ _ _ _ H1) as [Epath1 Ef1].
  destruct (Hrun p2 w1 resp2 parts2 d2 o2 Hc2 Hp2 Hd2 Ho2 _ _ _ _ H2) as [Epath2 Ef2].
  assert (E : path2 = path1) by (by rewrite Epath1, Epath2, Hstamp).
  clear Epath1 Epath2. rewrite E in Ef2. split; [exact E|].
  split; [by rewrite Ef1, lookup_insert_eq|].
  split; [by rewrite Ef2, lookup_insert_eq|].
  by rewrite Ef2, Ef1, insert_insert_eq.
Qed.

End ImageGeneration.

(** ** [login_instagram] *)

Section Login.

Context (env : services).

Lemma resolve_credentials_session (w : world) :
  truthy (dict_get (session w) KEY_USERNAME)
  && truthy (dict_get (session w) KEY_PASSWORD) = true →
  resolve_credentials env w
  = (Ret (dict_get (session w) KEY_USERNAME, dict_get (session w) KEY_PASSWORD), w).
Proof.
  intros Hboth. apply andb_true_iff in Hboth as [Hu Hp].
  unfold resolve_credentials, bind, session_get, gets. by rewrite Hu, Hp.
Qed.

Lemma resolve_credentials_env (w : world) (eu ep : string) :
  truthy (dict_get (session w) KEY_USERNAME)
  && truthy (dict_get (session w) KEY_PASSWORD) = false →
  env_instagram_username env = Some eu → eu ≠ "" →
  env_instagram_password env = Some ep → ep ≠ "" →
  resolve_credentials env w = (Ret (PStr eu, PStr ep), w).
Proof.
  intros Hsess Heu Hu Hep Hp.
  unfold resolve_credentials, bind, session_get, gets.
  rewrite <- negb_andb, Hsess, Heu, Hep. cbn [negb of_opt_str truthy].
  destruct eu; [done|]. destruct ep; [done|]. reflexivity.
Qed.

Lemma resolve_credentials_none (w : world) :
  truthy (dict_get (session w) KEY_USERNAME)
  && truthy (dict_get (session w) KEY_PASSWORD) = false →
  truthy (of_opt_str (env_instagram_username env))
  && truthy (of_opt_str (env_instagram_password env)) = false →
  resolve_credentials env w = (Raise credentials_not_found, w).
Proof.
  intros Hsess Henv.
  unfold resolve_credentials, bind, session_get, gets.
  rewrite <- !negb_andb, Hsess, Henv. reflexivity.
Qed.

(** Loading the saved session never raises and changes the client only. *)
Lemma load_saved_session_detail (w : world) :
  ∃ w', load_saved_session w = (Ret tt, w')
        ∧ session w' = session w ∧ files w' = files w ∧ log w' = log w
        ∧ flashes w' = flashes w
        ∧ cl w' = match files w !! INSTAGRAM_SESSION_FILE with
                  | Some (FSettings s) =>
                      {| cl_settings := s; cl_logged_in := cl_logged_in (cl w) |}
                  | _ => cl w
                  end.
Proof.
  unfold load_saved_session, bind, path_exists, gets, try_except, cl_load_settings.
  destruct (files w !! INSTAGRAM_SESSION_FILE) as [[s|img|raw]|] eqn:Hfile.
  - rewrite bool_decide_true by eauto. rewrite Hfile. by eexists.
  - rewrite bool_decide_true by eauto. rewrite Hfile. by eexists.
  - rewrite bool_decide_true by eauto. rewrite Hfile. by eexists.
  - rewrite bool_decide_false by (by intros [? ?]). by eexists.
Qed.

Lemma login_instagram_full (w w1 : world) (u p : pyval) :
  resolve_credentials env w = (Ret (u, p), w) →
  load_saved_session w = (Ret tt, w1) →
  truthy (logged_in_flag w1) = false →
  login_instagram env w = full_login env u p w1.
Proof.
  intros Hcreds Hload Hflag. unfold login_instagram.
  rewrite (bind_ret_step _ _ _ _ _ Hcreds), (bind_ret_step _ _ _ _ _ Hload).
  rewrite (bind_ret_step (gets _) _ w1 w1 _ eq_refl).
  unfold logged_in_flag in Hflag. by rewrite Hflag.
Qed.

(** The full login logs exactly one login call, with the pair it is given. *)
Lemma full_login_log (u p : pyval) (w : world) :
  log (snd (full_login env u p w)) = (log w ++ [EvLogin u p])%list.
Proof.
  unfold full_login, try_except, bind, cl_login.
  destruct (fst (ig_login env (log w) (cl w) u p)) as [b|e]; [reflexivity|].
  unfold remove_if_exists, bind, path_exists, gets.
  by destruct (bool_decide _).
Qed.

(** X5. Without a true username and password in the session and without a
    pair in [.env], [login_instagram] raises the [ValueError] at once: the
    session file is not read, the client is not touched and no login is
    attempted. *)
Theorem login_without_credentials (w : world) :
  truthy (dict_get (session w) KEY_USERNAME)
  && truthy (dict_get (session w) KEY_PASSWORD) = false →
  truthy (of_opt_str (env_instagram_username env))
  && truthy (of_opt_str (env_instagram_password env)) = false →
  login_instagram env w = (Raise credentials_not_found, w).
Proof.
  intros Hsess Henv. unfold login_instagram.
  apply bind_raise_step. by apply resolve_credentials_none.
Qed.

(** X6. The credentials of the browser session win over those of [.env]:
    with a true username and password in the session and no [logged_in]
    flag on the client, the one login call made carries the pair of the
    session. *)
Theorem login_prefers_session_credentials (w : world) :
  truthy (dict_get (session w) KEY_USERNAME)
  && truthy (dict_get (session w) KEY_PASSWORD) = true →
  truthy (logged_in_flag w) = false →
  log (snd (login_instagram env w))
  = (log w ++ [EvLogin (dict_get (session w) KEY_USERNAME)
                       (dict_get (session w) KEY_PASSWORD)])%list.
Proof.
  intros Hsess Hflag.
  destruct (load_saved_session_detail w) as (w1 & Hload & _ & _ & Hlog & _ & Hcl).
  assert (Hflag1 : truthy (logged_in_flag w1) = false).
  { unfold logged_in_flag in *. rewrite Hcl.
    by destruct (files w !! INSTAGRAM_SESSION_FILE) as [[]|]. }
  rewrite (login_instagram_full w w1 _ _ (resolve_credentials_session w Hsess) Hload Hflag1).
  by rewrite full_login_log, Hlog.
Qed.

(** X7. The fallback takes both values from [.env]: when the session lacks
    a true username or a true password, the login call carries the username
    and the password of [.env], also when the session still holds one of
    the two. *)
Theorem login_falls_back_to_env_pair (w : world) (eu ep : string) :
  truthy (dict_get (session w) KEY_USERNAME)
  && truthy (dict_get (session w) KEY_PASSWORD) = false →
  env_instagram_username env = Some eu → eu ≠ "" →
  env_instagram_password env = Some ep → ep ≠ "" →
  truthy (logged_in_flag w) = false →
  log (snd (login_instagram env w)) = (log w ++ [EvLogin (PStr eu) (PStr ep)])%list.
Proof.
  intros Hsess Heu Hu Hep Hp Hflag.
  destruct (load_saved_session_detail w) as (w1 & Hload & _ & _ & Hlog & _ & Hcl).
  assert (Hflag1 : truthy (logged_in_flag w1) = false).
  { unfold logged_in_flag in *. rewrite Hcl.
    by destruct (files w !! INSTAGRAM_SESSION_FILE) as [[]|]. }
  rewrite (login_instagram_full w w1 _ _
             (resolve_credentials_env w eu ep Hsess Heu Hu Hep Hp) Hload Hflag1).
  by rewrite full_login_log, Hlog.
Qed.

(** X8. When the client carries a true [logged_in] attribute and the
    session holds credentials, [login_instagram] returns without any login
    call and without writing or removing a file. *)
Theorem login_skipped_when_flagged (w : world) :
  truthy (dict_get (session w) KEY_USERNAME)
  && truthy (dict_get (session w) KEY_PASSWORD) = true →
  truthy (logged_in_flag w) = true →
  ∃ w', login_instagram env w = (Ret tt, w')
        ∧ log w' = log w ∧ files w' = files w ∧ session w' = session w.
Proof.
  intros Hsess Hflag.
  destruct (load_saved_session_detail w) as (w1 & Hload & Hs & Hf & Hlog & _ & Hcl).
  assert (Hflag1 : truthy (logged_in_flag w1) = true).
  { unfold logged_in_flag in *. rewrite Hcl.
    by destruct (files w !! INSTAGRAM_SESSION_FILE) as [[]|]. }
  exists w1. split; [|done].
  unfold login_instagram.
  rewrite (bind_ret_step _ _ _ _ _ (resolve_credentials_session w Hsess)).
  rewrite (bind_ret_step _ _ _ _ _ Hload).
  rewrite (bind_ret_step (gets _) _ w1 w1 _ eq_refl).
  unfold logged_in_flag in Hflag1. by rewrite Hflag1.
Qed.

(** X9. A session file that is missing or does not hold settings never
    makes the loading step fail: [load_saved_session] always returns, keeps
    session, files and log, and gives the client the settings of the file
    exactly when the file holds settings. *)
Theorem load_saved_session_tolerant (w : world) :
  ∃ w', load_saved_session w = (Ret tt, w')
        ∧ session w' = session w ∧ files w' = files w ∧ log w' = log w
        ∧ cl w' = match files w !! INSTAGRAM_SESSION_FILE with
                  | Some (FSettings s) =>
                      {| cl_settings := s; cl_logged_in := cl_logged_in (cl w) |}
                  | _ => cl w
                  end.
Proof.
  destruct (load_saved_session_detail w) as (w' & Hload & Hs & Hf & Hlog & _ & Hcl).
  by exists w'.
Qed.

End Login.

(** ** [post_to_instagram] and [/post] *)

Section Upload.

Context (env : services).

(** With the file on disk, the upload is attempted exactly when the login
    step returned. *)
Lemma post_to_instagram_present (p : string) (caption : pyval) (w : world) :
  is_Some (files w !! p) →
  post_to_instagram env (PStr p) caption w
  = match login_instagram env w with
    | (Raise _, w1) => (Ret false, w1)
    | (Ret _, w1) =>
        (Ret (match ig_photo_upload env (log w1) (cl w1) p caption with
              | Ret _ => true
              | Raise _ => false
              end),
         add_event (EvUpload p caption) w1)
    end.
Proof.
  intros Hfile. unfold post_to_instagram, make_path.
  rewrite (bind_ret_step (ret p) _ w w p eq_refl).
  rewrite (bind_ret_step (path_exists p) _ w w true).
  2:{ unfold path_exists, gets. by rewrite bool_decide_true. }
  cbn [negb]. unfold try_except, bind at 1.
  destruct (login_instagram env w) as [[[]|e] w1].
  - unfold bind, cl_photo_upload, ret.
    destruct (ig_photo_upload env (log w1) (cl w1) p caption) as [[]|e];
      [reflexivity|]. by destruct (exn_cls e).
  - by destruct (exn_cls e).
Qed.

(** For a path that is a string, [post_to_instagram] always returns. *)
Lemma post_to_instagram_returns (p : string) (caption : pyval) (w : world) :
  ∃ b w', post_to_instagram env (PStr p) caption w = (Ret b, w').
Proof.
  destruct (files w !! p) as [f|] eqn:Hfile.
  - rewrite post_to_instagram_present by eauto.
    destruct (login_instagram env w) as [[[]|e] w1]; eauto.
  - exists false, w. unfold post_to_instagram, make_path, bind, ret, path_exists, gets.
    rewrite bool_decide_false; [reflexivity|]. rewrite Hfile. by intros [? ?].
Qed.

(** X10. When the existence check of [post_to_instagram] answers [False],
    the function returns [False] and leaves the world as it was: the check
    comes first, so no session file is read and no login or upload is
    attempted. *)
Theorem post_to_instagram_missing_file (p : string) (caption : pyval) (w : world) :
  path_exists p w = (Ret false, w) →
  post_to_instagram env (PStr p) caption w = (Ret false, w).
Proof.
  intros Hcheck. unfold post_to_instagram, make_path.
  rewrite (bind_ret_step (ret p) _ w w p eq_refl).
  by rewrite (bind_ret_step _ _ _ _ _ Hcheck).
Qed.

(** X11. When the file exists, [post_to_instagram] never raises: a login
    step that raises gives [False] without any upload call; a login step
    that returns is followed by exactly one upload call with the path and
    the caption, and the result is [True] exactly when that call returns. *)
Theorem post_to_instagram_after_login (p : string) (caption : pyval) (w : world) :
  is_Some (files w !! p) →
  match login_instagram env w with
  | (Raise _, w1) => post_to_instagram env (PStr p) caption w = (Ret false, w1)
  | (Ret _, w1) =>
      ∃ b, post_to_instagram env (PStr p) caption w
           = (Ret b, add_event (EvUpload p caption) w1)
           ∧ (b = true ↔ ∃ u, ig_photo_upload env (log w1) (cl w1) p caption = Ret u)
  end.
Proof.
  intros Hfile. rewrite (post_to_instagram_present p caption w Hfile).
  destruct (login_instagram env w) as [[[]|e] w1]; [|reflexivity].
  eexists. split; [reflexivity|].
  destruct (ig_photo_upload env (log w1) (cl w1) p caption) as [u|e].
  - split; [by eexists|done].
  - split; [discriminate|]. by intros [u Hu].
Qed.

(** X12. [POST /post] from a logged-in browser with a JSON object whose
    [image_path] is missing, null or otherwise false answers the 400 JSON
    error and leaves the world as it was. *)
Theorem post_without_image_path (d : gmap string pyval) (w : world) :
  is_Some (session w !! KEY_USERNAME) →
  truthy (dict_get d "image_path") = false →
  serve (post env (PDict d)) w = (path_missing, w).
Proof.
  intros Hin Hpath.
  unfold serve, post, py_get, bind, ret, session_has, gets.
  rewrite bool_decide_true by done. cbn [negb].
  unfold dict_get in Hpath. unfold dict_get_default. by rewrite Hpath.
Qed.

(** X13. [POST /post] never writes the browser session, whatever the body
    and whatever becomes of the login and the upload. *)
Theorem post_keeps_session (data : pyval) (w : world) :
  session (snd (serve (post env data) w)) = session w.
Proof. rewrite snd_serve. apply frames_session_post. Qed.

(** X14. [POST /post] from a logged-in browser with a non-empty string as
    [image_path] answers JSON whenever the existence check on that path
    answers: 200 with [success: true] when [post_to_instagram], called with
    that path and the caption of the body (or the default caption), returns
    [True], and 500 with [success: false] when it returns [False], as it
    does without any other step when the check answers [False]. *)
Theorem post_reports_upload
    (d : gmap string pyval) (p : string) (w : world) (present : bool) :
  is_Some (session w !! KEY_USERNAME) →
  d !! "image_path" = Some (PStr p) → p ≠ "" →
  path_exists p w = (Ret present, w) →
  ∃ b w',
    post_to_instagram env (PStr p) (caption_of d) w = (Ret b, w')
    ∧ serve (post env (PDict d)) w = (if b then posted_ok else post_failed, w')
    ∧ (present = false → b = false ∧ w' = w).
Proof.
  intros Hin Hd Hp Hcheck.
  destruct (post_to_instagram_returns p (caption_of d) w) as (b & w' & Hpost).
  exists b, w'. split; [exact Hpost|]. split.
  - unfold serve, post, py_get.
    rewrite (bind_ret_step (ret _) _ w w _ eq_refl).
    rewrite (bind_ret_step (ret _) _ w w _ eq_refl).
    rewrite (bind_ret_step (session_has _) _ w w true).
    2:{ unfold session_has, gets. by rewrite bool_decide_true. }
    unfold dict_get_default at 1. unfold dict_get_default at 1. rewrite Hd.
    cbv beta iota delta [default from_option id].
    destruct p as [|c r]; [done|]. cbn [truthy String.eqb negb].
    fold (caption_of d).
    rewrite (bind_ret_step _ _ _ _ _ Hpost). by destruct b.
  - intros ->. unfold post_to_instagram, make_path in Hpost.
    rewrite (bind_ret_step (ret p) _ w w p eq_refl) in Hpost.
    rewrite (bind_ret_step _ _ _ _ _ Hcheck) in Hpost.
    cbn [negb] in Hpost. unfold ret in Hpost. by injection Hpost as <- <-.
Qed.

(** X15. [POST /post] from a logged-in browser with an [image_path] that is
    true but not a string (a number, [true], a list, an object) lets the
    [TypeError] of [Path(...)] escape the view: the answer is Flask's 500
    page, and nothing was read from disk, logged in or uploaded. *)
Theorem post_non_string_path_escapes (d : gmap string pyval) (v : pyval) (w : world) :
  is_Some (session w !! KEY_USERNAME) →
  d !! "image_path" = Some v → truthy v = true → type_name v ≠ "str" →
  post env (PDict d) w
  = (Raise (MkExn TypeError
              ("expected str, bytes or os.PathLike object, not " +:+ type_name v)), w)
  ∧ serve (post env (PDict d)) w = ({| status := 500; resp_body := ErrorPage |}, w).
Proof.
  intros Hin Hd Hv Hty.
  assert (Hpost : post env (PDict d) w
                  = (Raise (MkExn TypeError
                              ("expected str, bytes or os.PathLike object, not "
                               +:+ type_name v)), w)).
  { unfold post, py_get.
    rewrite (bind_ret_step (ret _) _ w w _ eq_refl).
    rewrite (bind_ret_step (ret _) _ w w _ eq_refl).
    rewrite (bind_ret_step (session_has _) _ w w true).
    2:{ unfold session_has, gets. by rewrite bool_decide_true. }
    unfold dict_get_default at 1. unfold dict_get_default at 1. rewrite Hd.
    cbv beta iota delta [default from_option id].
    rewrite Hv. cbn [negb].
    apply bind_raise_step. unfold post_to_instagram. apply bind_raise_step.
    by destruct v. }
  split; [exact Hpost|]. unfold serve. by rewrite Hpost.
Qed.

End Upload.

(** ** The login form, [/logout] and [/] *)

Section Views.

Context (env : services).

Lemma verify_with_temp_client_keeps_cl (u p : pyval) :
  frames cl (verify_with_temp_client env u p).
Proof.
  intros w. unfold verify_with_temp_client.
  by destruct (fst (ig_login env (log w) fresh_client u p)).
Qed.

Lemma remove_if_exists_eq (path : string) (w : world) :
  remove_if_exists path w = (Ret tt, set_files (λ fs, delete path fs) w)
  ∨ (files w !! path = None ∧ remove_if_exists path w = (Ret tt, w)).
Proof.
  unfold remove_if_exists, bind, path_exists, gets.
  destruct (bool_decide (is_Some (files w !! path))) eqn:Hex; [by left|].
  right. split; [|reflexivity].
  apply bool_decide_eq_false in Hex. by apply eq_None_not_Some.
Qed.

(** What [/logout] leaves, field by field. *)
Lemma logout_world (w : world) :
  session (snd (serve logout w))
  = delete KEY_CURRENT (delete KEY_PASSWORD (delete KEY_USERNAME (session w)))
  ∧ files (snd (serve logout w)) = delete INSTAGRAM_SESSION_FILE (files w)
  ∧ cl (snd (serve logout w)) = fresh_client
  ∧ log (snd (serve logout w)) = log w.
Proof.
  rewrite snd_serve. unfold logout, bind, session_pop, modify, flash, modify, ret.
  destruct (remove_if_exists_eq INSTAGRAM_SESSION_FILE
              (set_session (λ s, dict_pop s KEY_CURRENT)
                 (set_session (λ s, dict_pop s KEY_PASSWORD)
                    (set_session (λ s, dict_pop s KEY_USERNAME) w))))
    as [Hrm | [Hnone Hrm]]; rewrite Hrm; cbn [snd session files cl log
      set_flashes set_cl set_files set_session].
  - done.
  - cbn [files set_session] in Hnone. by rewrite (delete_id _ _ Hnone).
Qed.

(** The 401 of [/post], from the code. *)
Lemma post_unauthorized_eq (d : gmap string pyval) (w : world) :
  session w !! KEY_USERNAME = None →
  serve (post env (PDict d)) w = (unauthorized, w).
Proof.
  intros Hnone. unfold serve, post, py_get, bind, ret, session_has, gets.
  rewrite Hnone. rewrite bool_decide_false; [reflexivity|]. by intros [v Hv].
Qed.

(** The session an accepted login form leaves. *)
Lemma login_form_accepted_world
    (form : gmap string string) (u p : string) (w : world) (b : bool) (c : ig_client) :
  form !! "username" = Some u → u ≠ "" →
  form !! "password" = Some p → p ≠ "" →
  ig_login env (log w) fresh_client (PStr u) (PStr p) = (Ret b, c) →
  ∃ w', serve (handle_instagram_login env form) w = (redirect "/", w')
        ∧ session w' = <[KEY_PASSWORD := PStr p]> (<[KEY_USERNAME := PStr u]> (session w)).
Proof.
  intros Hu Hune Hp Hpne Hlogin.
  unfold serve, handle_instagram_login. rewrite Hu, Hp.
  destruct u as [|cu ru]; [done|]. destruct p as [|cp rp]; [done|].
  cbn [falsy_str of_opt_str truthy String.eqb negb orb].
  unfold bind, try_except, session_set, modify, verify_with_temp_client.
  cbn [log set_session]. rewrite Hlogin. cbn [fst snd].
  eexists. split; [reflexivity|]. done.
Qed.

(** X16. A login form without a username or without a password (missing or
    empty) is answered with a redirect to the login page and one flashed
    error; session, files, client and log are untouched, so no login is
    attempted and credentials already in the session stay. *)
Theorem login_form_incomplete (form : gmap string string) (w : world) :
  falsy_str (form !! "username") || falsy_str (form !! "password") = true →
  serve (handle_instagram_login env form) w
  = (redirect "/login/instagram",
     set_flashes (λ fl, (fl ++ [("error", "Username and password are required.")])%list) w).
Proof.
  intros Hform. unfold serve, handle_instagram_login. by rewrite Hform.
Qed.

(** X17. [handle_instagram_login] never changes the global client: the
    login runs on a client of its own. *)
Theorem login_form_keeps_global_client (form : gmap string string) (w : world) :
  cl (snd (serve (handle_instagram_login env form) w)) = cl w.
Proof.
  rewrite snd_serve. revert w. change (frames cl (handle_instagram_login env form)).
  assert (Hmod : ∀ f, frames cl (modify (set_session f))) by (intros f w; done).
  assert (Hflash : ∀ m c, frames cl (flash m c)) by (intros m c w; done).
  assert (Hrm : ∀ p, frames cl (remove_if_exists p)).
  { intros p. unfold remove_if_exists. apply frames_bind; [apply frames_gets|].
    intros []; [by apply frames_modify | apply frames_ret]. }
  unfold handle_instagram_login. apply frames_if.
  { apply frames_bind; [apply Hflash|]. intros _. apply frames_ret. }
  apply frames_bind; [apply Hmod|]. intros _.
  apply frames_bind; [apply Hmod|]. intros _.
  apply frames_try.
  - apply frames_bind; [apply verify_with_temp_client_keeps_cl|]. intros _.
    apply frames_bind; [apply Hflash|]. intros _. apply frames_ret.
  - intros e.
    apply frames_bind; [apply Hmod|]. intros _.
    apply frames_bind; [apply Hmod|]. intros _.
    apply frames_bind; [apply Hmod|]. intros _.
    apply frames_bind; [apply Hrm|]. intros _.
    apply frames_bind; [apply Hflash|]. intros _. apply frames_ret.
Qed.

(** X18. When the login of the form's username and password returns, the
    answer is a redirect to [/]; the session holds the two values under
    [instagram_username] and [instagram_password] and is otherwise as
    before, the session file holds the settings of the temporary client, one
    login call is logged and one success message is flashed. *)
Theorem login_form_accepted
    (form : gmap string string) (u p : string) (w : world) (b : bool) (c : ig_client) :
  form !! "username" = Some u → u ≠ "" →
  form !! "password" = Some p → p ≠ "" →
  ig_login env (log w) fresh_client (PStr u) (PStr p) = (Ret b, c) →
  ∃ w', serve (handle_instagram_login env form) w = (redirect "/", w')
        ∧ session w' = <[KEY_PASSWORD := PStr p]> (<[KEY_USERNAME := PStr u]> (session w))
        ∧ files w' = <[INSTAGRAM_SESSION_FILE := FSettings (cl_settings c)]> (files w)
        ∧ log w' = (log w ++ [EvLogin (PStr u) (PStr p)])%list
        ∧ flashes w'
          = (flashes w
             ++ [("success", "Login successful! You can now generate and post images.")])%list.
Proof.
  intros Hu Hune Hp Hpne Hlogin.
  unfold serve, handle_instagram_login. rewrite Hu, Hp.
  destruct u as [|cu ru]; [done|]. destruct p as [|cp rp]; [done|].
  cbn [falsy_str of_opt_str truthy String.eqb negb orb].
  unfold bind, try_except, session_set, modify, verify_with_temp_client.
  cbn [log set_session]. rewrite Hlogin. cbn [fst snd].
  eexists. split; [reflexivity|]. done.
Qed.

(** X19. When that login raises, the answer is a redirect to the login
    page; the session holds no username, no password and no current image
    afterwards, also when it held those of an earlier login, no session
    file is left on disk, and the last flashed message is the error with
    the text of the exception. *)
Theorem login_form_rejected
    (form : gmap string string) (u p : string) (w : world) (e : exn) (c : ig_client) :
  form !! "username" = Some u → u ≠ "" →
  form !! "password" = Some p → p ≠ "" →
  ig_login env (log w) fresh_client (PStr u) (PStr p) = (Raise e, c) →
  ∃ w', serve (handle_instagram_login env form) w = (redirect "/login/instagram", w')
        ∧ session w' !! KEY_USERNAME = None
        ∧ session w' !! KEY_PASSWORD = None
        ∧ session w' !! KEY_CURRENT = None
        ∧ files w' !! INSTAGRAM_SESSION_FILE = None
        ∧ flashes w'
          = (flashes w
             ++ [("error", "Login failed. Please check your credentials. Error: "
                           +:+ exn_str e)])%list.
Proof.
  intros Hu Hune Hp Hpne Hlogin.
  unfold serve, handle_instagram_login. rewrite Hu, Hp.
  destruct u as [|cu ru]; [done|]. destruct p as [|cp rp]; [done|].
  cbn [falsy_str of_opt_str truthy String.eqb negb orb].
  unfold bind at 1 2, try_except, session_set, modify. cbn [fst snd].
  unfold bind at 1, verify_with_temp_client. cbn [log set_session].
  rewrite Hlogin. cbn [fst snd].
  unfold bind, session_pop, modify, flash, modify, ret.
  match goal with
  | |- context [remove_if_exists ?path ?w0] =>
      destruct (remove_if_exists_eq path w0) as [Hrm | [Hnone Hrm]]; rewrite Hrm
  end.
  - eexists. split; [reflexivity|].
    cbn [session files flashes set_session set_files set_flashes add_event].
    unfold dict_pop.
    split; [by rewrite !lookup_delete_ne, lookup_delete_eq by done|].
    split; [by rewrite lookup_delete_ne, lookup_delete_eq by done|].
    split; [by rewrite lookup_delete_eq|].
    split; [by rewrite lookup_delete_eq|done].
  - eexists. split; [reflexivity|].
    cbn [session files flashes set_session set_files set_flashes add_event] in *.
    unfold dict_pop.
    split; [by rewrite !lookup_delete_ne, lookup_delete_eq by done|].
    split; [by rewrite lookup_delete_ne, lookup_delete_eq by done|].
    split; [by rewrite lookup_delete_eq|].
    split; [exact Hnone|done].
Qed.

End Views.

(** ** Requests in sequence *)

Section Sequences.

Context (env : services).

Lemma index_eq (w : world) :
  serve index w
  = (if truthy (dict_get (session w) KEY_USERNAME)
     then index_page (dict_get (session w) KEY_USERNAME) (dict_get (session w) KEY_CURRENT)
     else redirect "/login/instagram", w).
Proof.
  unfold serve, index, bind, session_get, gets.
  by destruct (truthy (dict_get (session w) KEY_USERNAME)).
Qed.

(** X20. After a login form was accepted, [GET /] renders the generator
    page for the username of the form, and shows as last result whatever
    the current slot of the browser session held before the login: an
    accepted login does not clear the image history. *)
Theorem index_after_login
    (form : gmap string string) (u p : string) (w : world) (b : bool) (c : ig_client) :
  form !! "username" = Some u → u ≠ "" →
  form !! "password" = Some p → p ≠ "" →
  ig_login env (log w) fresh_client (PStr u) (PStr p) = (Ret b, c) →
  fst (serve index (snd (serve (handle_instagram_login env form) w)))
  = index_page (PStr u) (dict_get (session w) KEY_CURRENT).
Proof.
  intros Hu Hune Hp Hpne Hlogin.
  destruct (login_form_accepted_world env form u p w b c Hu Hune Hp Hpne Hlogin)
    as (w' & Hrun & Hses).
  rewrite Hrun. cbn [snd]. rewrite index_eq. cbn [fst].
  unfold dict_get. rewrite Hses.
  rewrite lookup_insert_ne, lookup_insert_eq by done.
  rewrite !lookup_insert_ne by done.
  destruct u; [done|]. reflexivity.
Qed.

(** X21. After [/logout], whatever the world was, [GET /] redirects to the
    login page and [POST /post] with any JSON object is answered 401
    without touching anything. *)
Theorem locked_out_after_logout (d : gmap string pyval) (w : world) :
  fst (serve index (snd (serve logout w))) = redirect "/login/instagram"
  ∧ serve (post env (PDict d)) (snd (serve logout w))
    = (unauthorized, snd (serve logout w)).
Proof.
  destruct (logout_world w) as (Hses & _).
  assert (Hnone : session (snd (serve logout w)) !! KEY_USERNAME = None).
  { rewrite Hses. by rewrite !lookup_delete_ne, lookup_delete_eq by done. }
  split.
  - rewrite index_eq. cbn [fst]. unfold dict_get. by rewrite Hnone.
  - by apply post_unauthorized_eq.
Qed.

(** X22. A second [/logout] right after the first changes nothing but the
    flashed messages: session, files, client and log stay as the first one
    left them. *)
Theorem logout_twice (w : world) :
  let w1 := snd (serve logout w) in
  let w2 := snd (serve logout w1) in
  session w2 = session w1 ∧ files w2 = files w1 ∧ cl w2 = cl w1 ∧ log w2 = log w1.
Proof.
  cbv zeta.
  destruct (logout_world w) as (Hs1 & Hf1 & Hc1 & Hl1).
  destruct (logout_world (snd (serve logout w))) as (Hs2 & Hf2 & Hc2 & Hl2).
  split; [|split; [|split]].
  - rewrite Hs2, Hs1. apply map_eq. intros k.
    rewrite !lookup_delete. by repeat case_decide.
  - by rewrite Hf2, Hf1, delete_delete_eq.
  - by rewrite Hc2, Hc1.
  - exact Hl2.
Qed.

End Sequences.

(** ** More on the undo buffer and [/generate] *)

Section UndoBufferDepth.

Context (env : services).

(** A [/generate] that answers a result dict ran with a non-empty idea. *)
Lemma generate_result_inv (form : gmap string string) (w w' : world) (d : gmap string pyval) :
  generate env form w = (Ret (jsonify (PDict d)), w') →
  ∃ idea, form !! "idea" = Some idea ∧ idea ≠ "".
Proof.
  intros Hgen. destruct (form !! "idea") as [idea|] eqn:Hform.
  - exists idea. split; [reflexivity|]. intros ->.
    unfold generate in Hgen. rewrite Hform in Hgen. discriminate Hgen.
  - unfold generate in Hgen. rewrite Hform in Hgen. discriminate Hgen.
Qed.

(** X23. The first image of a browser session cannot be undone: when the
    current slot is empty, a successful [/generate] stores [None] in the
    previous slot, and the following [GET /last_image] answers 404 and
    changes nothing. *)
Theorem first_image_cannot_be_undone
    (form : gmap string string) (w w1 : world) (A : gmap string pyval) :
  slot_empty w KEY_CURRENT →
  generate env form w = (Ret (jsonify (PDict A)), w1) →
  reports_success (jsonify (PDict A)) = true →
  session w1 !! KEY_PREVIOUS = Some PNone
  ∧ session w1 !! KEY_CURRENT = Some (PDict A)
  ∧ serve get_last_image w1 = (not_found, w1).
Proof.
  intros Hempty Hgen Hok.
  destruct (generate_success env form w w1 A Hgen Hok) as [Hses _].
  unfold slot_empty in Hempty. rewrite Hempty in Hses.
  assert (Hprev : session w1 !! KEY_PREVIOUS = Some PNone).
  { rewrite Hses. by rewrite lookup_insert_ne, lookup_insert_eq by done. }
  split; [exact Hprev|]. split; [rewrite Hses; by rewrite lookup_insert_eq|].
  unfold serve. rewrite get_last_image_none; [reflexivity|].
  unfold dict_get. by rewrite Hprev.
Qed.

(** X24. The buffer is one step deep: after three successful generations
    [A], [B], [C], [GET /last_image] answers [B] and makes it the current
    result, and a second [GET /last_image] answers 404; [A] is in neither
    slot any more. *)
Theorem undo_depth_is_one
    (f1 f2 f3 : gmap string string) (w0 w1 w2 w3 : world) (A B C : gmap string pyval) :
  generate env f1 w0 = (Ret (jsonify (PDict A)), w1) →
  reports_success (jsonify (PDict A)) = true →
  generate env f2 w1 = (Ret (jsonify (PDict B)), w2) →
  reports_success (jsonify (PDict B)) = true →
  generate env f3 w2 = (Ret (jsonify (PDict C)), w3) →
  reports_success (jsonify (PDict C)) = true →
  ∃ w4, serve get_last_image w3 = (jsonify (PDict B), w4)
        ∧ session w4 !! KEY_CURRENT = Some (PDict B)
        ∧ session w4 !! KEY_PREVIOUS = None
        ∧ serve get_last_image w4 = (not_found, w4).
Proof.
  intros HA HokA HB HokB HC HokC.
  destruct (generate_success env _ _ _ _ HB HokB) as [Hs2 HtB].
  destruct (generate_success env _ _ _ _ HC HokC) as [Hs3 _].
  assert (Hcur2 : dict_get (session w2) KEY_CURRENT = PDict B).
  { unfold dict_get. rewrite Hs2. by rewrite lookup_insert_eq. }
  rewrite Hcur2 in Hs3.
  assert (Hprev3 : dict_get (session w3) KEY_PREVIOUS = PDict B).
  { unfold dict_get. rewrite Hs3. by rewrite lookup_insert_ne, lookup_insert_eq by done. }
  eexists. unfold serve at 1.
  rewrite (get_last_image_some w3 (PDict B) Hprev3 HtB).
  split; [reflexivity|].
  unfold set_session, dict_pop. cbn [session].
  split; [by rewrite lookup_delete_ne, lookup_insert_eq by done|].
  split; [by rewrite lookup_delete_eq|].
  unfold serve. rewrite get_last_image_none; [reflexivity|].
  unfold dict_get. cbn [session]. by rewrite lookup_delete_eq.
Qed.

(** X25. The path a successful [/generate] reports can be posted: the
    [image_path] of the response is a non-empty string, [image_url] is that
    string behind a slash, and a file exists at that path when the request
    is over. *)
Theorem generated_image_is_on_disk
    (form : gmap string string) (w w' : world) (d : gmap string pyval) :
  generate env form w = (Ret (jsonify (PDict d)), w') →
  reports_success (jsonify (PDict d)) = true →
  ∃ p, d !! "image_path" = Some (PStr p)
       ∧ d !! "image_url" = Some (PStr ("/" +:+ p))
       ∧ p ≠ ""
       ∧ is_Some (files w' !! p).
Proof.
  intros Hgen Hok.
  destruct (generate_result_inv form w w' d Hgen) as (idea & Hform & Hne).
  destruct (generate_nonempty env form idea w Hform Hne)
    as (dp & path & url & st & w2 & Himg & _ & _ & Hrun).
  rewrite Hrun in Hgen. injection Hgen as Hd Hw.
  rewrite <- Hd in Hok. rewrite reports_success_make_result in Hok.
  rewrite Hok in Hw.
  destruct (make_result_lookup dp url path st) as (_ & Hurl & Hpath & _).
  rewrite Hd in Hurl, Hpath.
  destruct (generate_image_detail env dp
              (add_event (EvTextCall "gemini-2.5-flash" (prompt_text idea)) w))
    as [[e He] | [opened Hsucc]].
  - rewrite He in Himg. injection Himg as <- _ _ _. discriminate Hok.
  - rewrite Hsucc in Himg. injection Himg as <- <- _ <-.
    eexists. split; [exact Hpath|]. split; [exact Hurl|]. split; [discriminate|].
    rewrite <- Hw. unfold shift_in, set_session, set_files. cbn [files].
    rewrite lookup_insert_eq. by eexists.
Qed.

(** X26. [/generate] with a non-empty idea calls the text model with the
    prompt built around the idea and then the image model with exactly the
    string it reports as [detailed_prompt], which is what [generate_prompt]
    returned; after that at most the clock is read, and it has been read
    whenever the response reports a success. *)
Theorem generate_call_order (form : gmap string string) (idea : string) (w : world) :
  form !! "idea" = Some idea → idea ≠ "" →
  ∃ dp d w' tail,
    serve (generate env form) w = (jsonify (PDict d), w')
    ∧ fst (generate_prompt env idea w) = Ret dp
    ∧ d !! "detailed_prompt" = Some (PStr dp)
    ∧ log w' = (log w ++ [EvTextCall TEXT_MODEL (prompt_text idea);
                          EvImageCall IMAGE_MODEL dp] ++ tail)%list
    ∧ (tail = [] ∨ tail = [EvClock])
    ∧ (reports_success (jsonify (PDict d)) = true → tail = [EvClock]).
Proof.
  intros Hform Hne.
  destruct (generate_nonempty env form idea w Hform Hne)
    as (dp & path & url & st & w2 & Himg & _ & Hdp & Hrun).
  destruct (make_result_lookup dp url path st) as (Hprompt & _).
  destruct (generate_image_detail env dp
              (add_event (EvTextCall "gemini-2.5-flash" (prompt_text idea)) w))
    as [[e He] | [opened Hsucc]].
  - rewrite He in Himg. injection Himg as <- <- _ <-.
    exists dp, (make_result dp None None st). eexists. exists [].
    split; [unfold serve; rewrite Hrun; reflexivity|].
    split; [by rewrite Hdp|]. split; [exact Hprompt|].
    split; [|split; [by left|]].
    + cbn [of_opt_str truthy andb].
      unfold after_image_call, add_event. cbn [log].
      by rewrite <- (assoc_L (++)).
    + rewrite reports_success_make_result. discriminate.
  - rewrite Hsucc in Himg. injection Himg as <- <- _ <-.
    eexists dp, (make_result dp _ _ st). eexists. exists [EvClock].
    split; [unfold serve; rewrite Hrun; reflexivity|].
    split; [by rewrite Hdp|]. split; [exact Hprompt|].
    split; [|split; [by right|done]].
    cbn [of_opt_str truthy String.eqb negb andb].
    unfold shift_in, after_image_call, set_session, set_files, add_event. cbn [log].
    by rewrite <- !(assoc_L (++)).
Qed.

(** X27. [/generate] writes no key of the session other than the two slots
    of the undo buffer, whatever the form and the services do: the
    credentials in particular are as before. *)
Theorem generate_writes_buffer_keys_only (form : gmap string string) (w : world) (k : string) :
  k ≠ KEY_CURRENT → k ≠ KEY_PREVIOUS →
  session (snd (serve (generate env form) w)) !! k = session w !! k.
Proof.
  intros Hc Hp. rewrite snd_serve.
  destruct (generate_session env form w) as [H400 | (dp & url & path & st & w1 & Hres & Hses)].
  - by rewrite H400.
  - rewrite Hres. cbn [snd]. rewrite Hses.
    destruct (reports_success _); [|reflexivity].
    by rewrite !lookup_insert_ne.
Qed.

(** X28. [GET /last_image] touches nothing but the two slots of the undo
    buffer: every other session key, the files, the client and the log are
    as before, and it asks for no login. *)
Theorem last_image_touches_buffer_only (w : world) (k : string) :
  k ≠ KEY_CURRENT → k ≠ KEY_PREVIOUS →
  session (snd (serve get_last_image w)) !! k = session w !! k
  ∧ files (snd (serve get_last_image w)) = files w
  ∧ cl (snd (serve get_last_image w)) = cl w
  ∧ log (snd (serve get_last_image w)) = log w.
Proof.
  intros Hc Hp. unfold serve.
  destruct (truthy (dict_get (session w) KEY_PREVIOUS)) eqn:Ht.
  - rewrite (get_last_image_some w _ eq_refl Ht).
    unfold set_session, dict_pop. cbn [snd session files cl log].
    by rewrite lookup_delete_ne, lookup_insert_ne.
  - by rewrite (get_last_image_none w Ht).
Qed.

End UndoBufferDepth.

(** ** The script [instagrapi_check.py] *)

Section CheckScript.

Import InstagrapiCheck.

Context (api : client_api).

(** The [try] and [except] part of the script, before its [finally]. *)
Lemma check_script_body (u p path cap : string) (s : state) :
  let s1 := record_call (CallLogin u p) s in
  let s2 := record_call (CallUpload path cap) s1 in
  stry_except
    (sbind (login api u p) (fun _ =>
     sbind (InstagrapiCheck.path_exists path) (fun present =>
     if negb present then sret false
     else sbind (photo_upload api path cap) (fun _ => sret true))))
    (fun _ => sret false) s
  = match api_login api (calls s) u p with
    | Raise _ => (Ret false, s1)
    | Ret _ =>
        if bool_decide (path ∈ disk s) then
          (Ret (match api_photo_upload api (calls s1) path cap with
                | Ret _ => true
                | Raise _ => false
                end), s2)
        else (Ret false, s1)
    end.
Proof.
  cbv zeta. unfold stry_except, sbind, login, InstagrapiCheck.path_exists, photo_upload, sret.
  destruct (api_login api (calls s) u p) as [b|e]; [|reflexivity].
  cbn [disk record_call].
  destruct (bool_decide (path ∈ disk s)); cbn [negb]; [|reflexivity].
  by destruct (api_photo_upload api _ path cap).
Qed.

(** X29. On every path through [post_picture_to_instagram] the last call is
    one [logout], made after the login alone or after the login and the
    upload; when that [logout] raises, the function raises its exception
    instead of returning, also when the upload had succeeded. *)
Theorem check_script_always_logs_out (u p path cap : string) (s : state) :
  ∃ mid,
    (mid = [CallLogin u p] ∨ mid = [CallLogin u p; CallUpload path cap])
    ∧ calls (snd (post_picture_to_instagram api u p path cap s))
      = (calls s ++ mid ++ [CallLogout])%list
    ∧ ∀ e, api_logout api (calls s ++ mid)%list = Raise e →
           fst (post_picture_to_instagram api u p path cap s) = Raise e.
Proof.
  unfold post_picture_to_instagram, stry_finally.
  rewrite check_script_body. cbv zeta.
  destruct (api_login api (calls s) u p) as [b|e0].
  - destruct (bool_decide (path ∈ disk s)).
    + exists [CallLogin u p; CallUpload path cap]. split; [by right|].
      unfold logout, record_call. cbn [calls]. rewrite <- !(assoc_L (++)). cbn [app].
      split; [by destruct (api_logout api _)|].
      intros e He. by rewrite He.
    + exists [CallLogin u p]. split; [by left|].
      unfold logout, record_call. cbn [calls].
      split; [destruct (api_logout api _); by rewrite <- (assoc_L (++))|].
      intros e He. by rewrite He.
  - exists [CallLogin u p]. split; [by left|].
    unfold logout, record_call. cbn [calls].
    split; [destruct (api_logout api _); by rewrite <- (assoc_L (++))|].
    intros e He. by rewrite He.
Qed.

(** X30. [post_picture_to_instagram] returns [True] exactly when the login
    returns, the file exists, the upload returns and the logout returns.
    The login comes before the look at the disk: for a file that does not
    exist the calls made are the login and the logout. *)
Theorem check_script_true_iff (u p path cap : string) (s : state) :
  (fst (post_picture_to_instagram api u p path cap s) = Ret true
   ↔ (∃ b, api_login api (calls s) u p = Ret b)
     ∧ path ∈ disk s
     ∧ (∃ pk, api_photo_upload api (calls s ++ [CallLogin u p])%list path cap = Ret pk)
     ∧ (∃ b, api_logout api (calls s ++ [CallLogin u p; CallUpload path cap])%list = Ret b))
  ∧ (path ∉ disk s →
     calls (snd (post_picture_to_instagram api u p path cap s))
     = (calls s ++ [CallLogin u p; CallLogout])%list).
Proof.
  unfold post_picture_to_instagram, stry_finally.
  rewrite check_script_body. cbv zeta.
  unfold logout, record_call. cbn [calls].
  split.
  - destruct (api_login api (calls s) u p) as [b|e0].
    + destruct (bool_decide (path ∈ disk s)) eqn:Hin.
      * apply bool_decide_eq_true in Hin. cbn [calls].
        rewrite <- !(assoc_L (++)). cbn [app].
        destruct (api_photo_upload api _ path cap) as [pk|e1];
          destruct (api_logout api _) as [b'|e2]; cbn [fst].
        -- split; [intros _; eauto 10|reflexivity].
        -- split; [discriminate|]. intros (_ & _ & _ & [? ?]). discriminate.
        -- split; [discriminate|]. intros (_ & _ & [? ?] & _). discriminate.
        -- split; [discriminate|]. intros (_ & _ & [? ?] & _). discriminate.
      * apply bool_decide_eq_false in Hin. cbn [calls].
        destruct (api_logout api _); cbn [fst];
          split; try discriminate; by intros (_ & ? & _).
    + cbn [calls]. destruct (api_logout api _); cbn [fst];
        split; try discriminate; by intros ([? ?] & _).
  - intros Hout.
    destruct (api_login api (calls s) u p) as [b|e0].
    + rewrite bool_decide_false by done. cbn [calls].
      destruct (api_logout api _); cbn [snd calls]; by rewrite <- (assoc_L (++)).
    + cbn [calls]. destruct (api_logout api _); cbn [snd calls]; by rewrite <- (assoc_L (++)).
Qed.

End CheckScript.

(** ** The further properties on concrete requests *)

(** One generation with every service up. *)
Lemma generate_image_success_shape_witness :
  generate_image services_up cat_prompt world0
  = (Ret (Some cat_path, Some ("/" +:+ cat_path), "Image generation successful!"),
     snd (generate_image services_up cat_prompt world0))
  ∧ (∃ img, files (snd (generate_image services_up cat_prompt world0))
            = <[cat_path := FImage img]> (files world0))
  ∧ log (snd (generate_image services_up cat_prompt world0))
    = [EvImageCall IMAGE_MODEL cat_prompt; EvClock].
Proof.
  assert (Hrun : generate_image services_up cat_prompt world0
                 = (Ret (Some cat_path, Some ("/" +:+ cat_path),
                         "Image generation successful!"),
                    snd (generate_image services_up cat_prompt world0)))
    by (vm_compute; reflexivity).
  destruct (generate_image_success_shape services_up _ _ _ _ _ _ Hrun)
    as (_ & _ & _ & Hfile & Hlog).
  split; [exact Hrun|]. split; [exact Hfile|exact Hlog].
Defined.

(** The image model is down; then it answers with bytes that do not open. *)
Lemma generate_image_early_failure_writes_nothing_witness :
  (∃ e w', generate_image services_image_down cat_prompt world_two_images
           = (Ret (None, None, "Error generating image: " +:+ exn_str e), w')
           ∧ files w' = files world_two_images
           ∧ log w' = (log world_two_images ++ [EvImageCall IMAGE_MODEL cat_prompt])%list)
  ∧ (∃ e w', generate_image services_bad_bytes cat_prompt world_two_images
             = (Ret (None, None, "Error generating image: " +:+ exn_str e), w')
             ∧ files w' = files world_two_images
             ∧ log w' = (log world_two_images ++ [EvImageCall IMAGE_MODEL cat_prompt])%list).
Proof.
  split.
  - apply (generate_image_early_failure_writes_nothing services_image_down
             cat_prompt world_two_images).
    exact I.
  - apply (generate_image_early_failure_writes_nothing services_bad_bytes
             cat_prompt world_two_images).
    right. eexists. reflexivity.
Defined.

(** A blob without data in front of a blob with an image. *)
Lemma generate_image_first_blob_decides_witness :
  generate_image services_empty_blob cat_prompt world0
  = (Ret (None, None,
          "Error generating image: No image data returned. Text response: None"),
     after_image_call cat_prompt world0).
Proof.
  apply (generate_image_first_blob_decides services_empty_blob cat_prompt world0
           {| ir_parts := Ret [ {| inline_data := None |};
                                {| inline_data := Some {| blob_data := None |} |};
                                {| inline_data := Some {| blob_data := Some "PNG-bytes" |} |} ];
              ir_text := None |}
           [ {| inline_data := None |} ]
           [ {| inline_data := Some {| blob_data := Some "PNG-bytes" |} |} ]
           {| inline_data := Some {| blob_data := None |} |}
           {| blob_data := None |});
    [reflexivity | reflexivity | repeat constructor | reflexivity | reflexivity].
Defined.

(** Two different images while the clock stands still. *)
Lemma generate_image_same_second_overwrites_witness :
  let w1 := snd (generate_image services_echo_same_second "first" world0) in
  let w2 := snd (generate_image services_echo_same_second "second" w1) in
  files w1 !! cat_path = Some (FImage {| img_mode := "RGB"; img_raster := "first" |})
  ∧ files w2 !! cat_path = Some (FImage {| img_mode := "RGB"; img_raster := "second" |})
  ∧ files w2 = <[cat_path := FImage {| img_mode := "RGB"; img_raster := "second" |}]>
                 (files world0).
Proof.
  cbv zeta.
  destruct (generate_image_same_second_overwrites services_echo_same_second
              "first" "second" cat_path cat_path
              (Some ("/" +:+ cat_path)) (Some ("/" +:+ cat_path))
              "Image generation successful!" "Image generation successful!"
              world0
              (snd (generate_image services_echo_same_second "first" world0))
              (snd (generate_image services_echo_same_second "second"
                      (snd (generate_image services_echo_same_second "first" world0))))
              {| ir_parts := Ret [ {| inline_data := Some {| blob_data := Some "first" |} |} ];
                 ir_text := None |}
              {| ir_parts := Ret [ {| inline_data := Some {| blob_data := Some "second" |} |} ];
                 ir_text := None |}
              [ {| inline_data := Some {| blob_data := Some "first" |} |} ]
              [ {| inline_data := Some {| blob_data := Some "second" |} |} ]
              "first" "second"
              {| img_mode := "RGB"; img_raster := "first" |}
              {| img_mode := "RGB"; img_raster := "second" |})
    as (_ & Hfirst & Hsecond & Hdisk);
    [vm_compute; reflexivity | vm_compute; reflexivity | reflexivity
    | reflexivity | reflexivity | reflexivity | reflexivity
    | reflexivity | reflexivity | reflexivity | reflexivity |].
  split; [exact Hfirst|]. split; [exact Hsecond|exact Hdisk].
Defined.

(** A browser without credentials and an empty [.env]. *)
Lemma login_without_credentials_witness :
  login_instagram services_up world0 = (Raise credentials_not_found, world0).
Proof.
  apply (login_without_credentials services_up world0); reflexivity.
Defined.

(** The session holds alice, [.env] holds bob. *)
Lemma login_prefers_session_credentials_witness :
  log (snd (login_instagram services_env_credentials world_logged_in))
  = [EvLogin (PStr "alice") (PStr "s3cret")].
Proof.
  apply (login_prefers_session_credentials services_env_credentials world_logged_in);
    vm_compute; reflexivity.
Defined.

(** The session holds alice without a password, [.env] holds bob. *)
Lemma login_falls_back_to_env_pair_witness :
  log (snd (login_instagram services_env_credentials world_half_credentials))
  = [EvLogin (PStr "bob") (PStr "hunter2")].
Proof.
  apply (login_falls_back_to_env_pair services_env_credentials world_half_credentials
           "bob" "hunter2");
    [vm_compute; reflexivity | reflexivity | discriminate | reflexivity | discriminate
    | reflexivity].
Defined.

(** A client that says it is logged in. *)
Lemma login_skipped_when_flagged_witness :
  ∃ w', login_instagram services_down world_flagged = (Ret tt, w')
        ∧ log w' = log world_flagged ∧ files w' = files world_flagged
        ∧ session w' = session world_flagged.
Proof.
  apply (login_skipped_when_flagged services_down world_flagged);
    vm_compute; reflexivity.
Defined.

(** A path that is not on disk. *)
Lemma post_to_instagram_missing_file_witness :
  post_to_instagram services_up (PStr "static/generated_images/none.jpg") (PStr "hello")
    world_two_images
  = (Ret false, world_two_images).
Proof.
  apply (post_to_instagram_missing_file services_up). vm_compute. reflexivity.
Defined.

(** The first image is posted; then Instagram refuses the upload. *)
Lemma post_to_instagram_after_login_witness :
  (∃ w1, post_to_instagram services_up (PStr cat_path) (PStr "hello") world_two_images
         = (Ret true, add_event (EvUpload cat_path (PStr "hello")) w1))
  ∧ (∃ w1, post_to_instagram services_upload_down (PStr cat_path) (PStr "hello")
             world_two_images
           = (Ret false, add_event (EvUpload cat_path (PStr "hello")) w1))
  ∧ (∃ w1, post_to_instagram services_down (PStr cat_path) (PStr "hello") world_two_images
           = (Ret false, w1)
           ∧ log w1 = (log world_two_images ++ [EvLogin (PStr "alice") (PStr "s3cret")])%list).
Proof.
  assert (Hfile : is_Some (files world_two_images !! cat_path))
    by (vm_compute; eauto).
  split; [|split].
  - pose proof (post_to_instagram_after_login services_up cat_path (PStr "hello")
                  world_two_images Hfile) as H.
    destruct (login_instagram services_up world_two_images) as [[[]|e] w1] eqn:Hlogin;
      [|vm_compute in Hlogin; discriminate Hlogin].
    destruct H as (b & Hpost & Htrue). exists w1. rewrite Hpost.
    replace b with true; [reflexivity|]. symmetry. apply Htrue.
    exists tt. reflexivity.
  - pose proof (post_to_instagram_after_login services_upload_down cat_path (PStr "hello")
                  world_two_images Hfile) as H.
    destruct (login_instagram services_upload_down world_two_images)
      as [[[]|e] w1] eqn:Hlogin; [|vm_compute in Hlogin; discriminate Hlogin].
    destruct H as (b & Hpost & Htrue). exists w1. rewrite Hpost.
    destruct b; [|reflexivity]. destruct (proj1 Htrue eq_refl) as [u Hu]. discriminate Hu.
  - pose proof (post_to_instagram_after_login services_down cat_path (PStr "hello")
                  world_two_images Hfile) as H.
    destruct (login_instagram services_down world_two_images)
      as [[[]|e] w1] eqn:Hlogin; [vm_compute in Hlogin; discriminate Hlogin|].
    exists w1. split; [exact H|].
    change w1 with (snd (Raise (A:=unit) e, w1)). rewrite <- Hlogin.
    vm_compute. reflexivity.
Defined.

(** A logged-in browser posts an empty object. *)
Lemma post_without_image_path_witness :
  serve (post services_up (PDict ∅)) world_two_images = (path_missing, world_two_images).
Proof.
  apply (post_without_image_path services_up ∅ world_two_images);
    [vm_compute; eauto | reflexivity].
Defined.

(** A logged-in browser posts the first image; then a path that is not on
    disk. *)
Lemma post_reports_upload_witness :
  (∃ w', serve (post services_up (PDict post_body)) world_two_images = (posted_ok, w'))
  ∧ (∃ w', serve (post services_down (PDict post_body)) world_two_images = (post_failed, w'))
  ∧ serve (post services_up
             (PDict (<["image_path" := PStr "static/generated_images/none.jpg"]> ∅)))
      world_two_images
    = (post_failed, world_two_images).
Proof.
  assert (Hin : is_Some (session world_two_images !! KEY_USERNAME)) by (vm_compute; eauto).
  split; [|split].
  - destruct (post_reports_upload services_up post_body cat_path world_two_images true Hin)
      as (b & w' & Hpost & Hserve & _);
      [reflexivity | discriminate | vm_compute; reflexivity |].
    exists w'. rewrite Hserve. replace b with true; [reflexivity|].
    assert (Hb : fst (post_to_instagram services_up (PStr cat_path) (caption_of post_body)
                        world_two_images) = Ret true) by (vm_compute; reflexivity).
    rewrite Hpost in Hb. by injection Hb.
  - destruct (post_reports_upload services_down post_body cat_path world_two_images true Hin)
      as (b & w' & Hpost & Hserve & _);
      [reflexivity | discriminate | vm_compute; reflexivity |].
    exists w'. rewrite Hserve. replace b with false; [reflexivity|].
    assert (Hb : fst (post_to_instagram services_down (PStr cat_path) (caption_of post_body)
                        world_two_images) = Ret false) by (vm_compute; reflexivity).
    rewrite Hpost in Hb. by injection Hb.
  - destruct (post_reports_upload services_up
                (<["image_path" := PStr "static/generated_images/none.jpg"]> ∅)
                "static/generated_images/none.jpg" world_two_images false Hin)
      as (b & w' & _ & Hserve & Habsent);
      [reflexivity | discriminate | vm_compute; reflexivity |].
    destruct (Habsent eq_refl) as [-> ->]. exact Hserve.
Defined.

(** A logged-in browser posts [{"image_path": 5}]. *)
Lemma post_non_string_path_escapes_witness :
  post services_up (PDict post_body_number) world_two_images
  = (Raise (MkExn TypeError "expected str, bytes or os.PathLike object, not int"),
     world_two_images)
  ∧ serve (post services_up (PDict post_body_number)) world_two_images
    = ({| status := 500; resp_body := ErrorPage |}, world_two_images).
Proof.
  apply (post_non_string_path_escapes services_up post_body_number (PInt 5) world_two_images);
    [vm_compute; eauto | reflexivity | reflexivity | discriminate].
Defined.

(** A login form without a password, sent by a logged-in browser. *)
Lemma login_form_incomplete_witness :
  serve (handle_instagram_login services_up (login_form "carol" "")) world_logged_in
  = (redirect "/login/instagram",
     set_flashes (λ fl, (fl ++ [("error", "Username and password are required.")])%list)
       world_logged_in).
Proof.
  apply (login_form_incomplete services_up (login_form "carol" "") world_logged_in).
  vm_compute. reflexivity.
Defined.

(** Carol logs in from a fresh browser. *)
Lemma login_form_accepted_witness :
  ∃ w', serve (handle_instagram_login services_up (login_form "carol" "pw")) world0
        = (redirect "/", w')
        ∧ session w' = <[KEY_PASSWORD := PStr "pw"]> (<[KEY_USERNAME := PStr "carol"]> ∅)
        ∧ files w' = <[INSTAGRAM_SESSION_FILE := FSettings "authorization-data"]> ∅
        ∧ log w' = [EvLogin (PStr "carol") (PStr "pw")].
Proof.
  destruct (login_form_accepted services_up (login_form "carol" "pw") "carol" "pw" world0
              true {| cl_settings := "authorization-data"; cl_logged_in := None |})
    as (w' & Hrun & Hs & Hf & Hl & _);
    [vm_compute; reflexivity | discriminate | vm_compute; reflexivity | discriminate
    | reflexivity |].
  exists w'. split; [exact Hrun|]. split; [exact Hs|]. split; [exact Hf|exact Hl].
Defined.

(** Carol's login is refused in a browser where alice was logged in and had
    generated two images. *)
Lemma login_form_rejected_witness :
  session world_two_images !! KEY_USERNAME = Some (PStr "alice")
  ∧ ∃ w', serve (handle_instagram_login services_down (login_form "carol" "pw"))
            world_two_images
          = (redirect "/login/instagram", w')
          ∧ session w' !! KEY_USERNAME = None
          ∧ session w' !! KEY_PASSWORD = None
          ∧ session w' !! KEY_CURRENT = None
          ∧ files w' !! INSTAGRAM_SESSION_FILE = None.
Proof.
  split; [vm_compute; reflexivity|].
  destruct (login_form_rejected services_down (login_form "carol" "pw") "carol" "pw"
              world_two_images (MkExn (LibraryError "BadPassword") "bad password")
              fresh_client)
    as (w' & Hrun & Hu & Hp & Hc & Hf & _);
    [vm_compute; reflexivity | discriminate | vm_compute; reflexivity | discriminate
    | reflexivity |].
  exists w'. by repeat split.
Defined.

(** Carol logs in where alice had left two images. *)
Lemma index_after_login_witness :
  fst (serve index
         (snd (serve (handle_instagram_login services_up (login_form "carol" "pw"))
                 world_two_images)))
  = index_page (PStr "carol") (PDict result_B).
Proof.
  rewrite (index_after_login services_up (login_form "carol" "pw") "carol" "pw"
             world_two_images true
             {| cl_settings := "authorization-data"; cl_logged_in := None |});
    [vm_compute; reflexivity | vm_compute; reflexivity | discriminate
    | vm_compute; reflexivity | discriminate | reflexivity].
Defined.

(** The first generation of a session, then a pop. *)
Lemma first_image_cannot_be_undone_witness :
  session world_one_image !! KEY_PREVIOUS = Some PNone
  ∧ session world_one_image !! KEY_CURRENT = Some (PDict result_A)
  ∧ serve get_last_image world_one_image = (not_found, world_one_image).
Proof.
  apply (first_image_cannot_be_undone services_up (form_idea "a cat in a hat")
           world_logged_in world_one_image result_A);
    vm_compute; reflexivity.
Defined.

(** Three generations, then two pops. *)
Lemma undo_depth_is_one_witness :
  ∃ w4, serve get_last_image world_three_images = (jsonify (PDict result_B), w4)
        ∧ session w4 !! KEY_CURRENT = Some (PDict result_B)
        ∧ session w4 !! KEY_PREVIOUS = None
        ∧ serve get_last_image w4 = (not_found, w4).
Proof.
  apply (undo_depth_is_one services_up
           (form_idea "a cat in a hat") (form_idea "a dog in a scarf")
           (form_idea "an owl at dusk")
           world_logged_in world_one_image world_two_images world_three_images
           result_A result_B result_B);
    vm_compute; reflexivity.
Defined.

(** The file of the first generation. *)
Lemma generated_image_is_on_disk_witness :
  ∃ p, result_A !! "image_path" = Some (PStr p)
       ∧ result_A !! "image_url" = Some (PStr ("/" +:+ p))
       ∧ p ≠ ""
       ∧ is_Some (files world_one_image !! p).
Proof.
  apply (generated_image_is_on_disk services_up (form_idea "a cat in a hat")
           world_logged_in world_one_image result_A);
    vm_compute; reflexivity.
Defined.

(** The text model is down: the image model is asked with the idea itself. *)
Lemma generate_call_order_witness :
  ∃ d w' tail,
    serve (generate services_down (form_idea "a cat in a hat")) world0
    = (jsonify (PDict d), w')
    ∧ d !! "detailed_prompt" = Some (PStr "a cat in a hat")
    ∧ log w' = ([EvTextCall TEXT_MODEL (prompt_text "a cat in a hat");
                 EvImageCall IMAGE_MODEL "a cat in a hat"] ++ tail)%list
    ∧ (tail = [] ∨ tail = [EvClock]).
Proof.
  destruct (generate_call_order services_down (form_idea "a cat in a hat")
              "a cat in a hat" world0)
    as (dp & d & w' & tail & Hrun & Hdp & Hprompt & Hlog & Htail & _);
    [vm_compute; reflexivity | discriminate |].
  assert (Edp : dp = "a cat in a hat").
  { assert (H : fst (generate_prompt services_down "a cat in a hat" world0)
                = Ret "a cat in a hat") by (vm_compute; reflexivity).
    rewrite Hdp in H. by injection H. }
  subst dp. exists d, w', tail. split; [exact Hrun|]. split; [exact Hprompt|].
  split; [exact Hlog|exact Htail].
Defined.

(** A generation keeps the username of the session. *)
Lemma generate_writes_buffer_keys_only_witness :
  session (snd (serve (generate services_up (form_idea "a cat in a hat")) world_logged_in))
    !! KEY_USERNAME
  = Some (PStr "alice").
Proof.
  rewrite (generate_writes_buffer_keys_only services_up (form_idea "a cat in a hat")
             world_logged_in KEY_USERNAME); [vm_compute; reflexivity | done | done].
Defined.

(** A pop keeps the username, the files and the log. *)
Lemma last_image_touches_buffer_only_witness :
  session (snd (serve get_last_image world_two_images)) !! KEY_USERNAME
  = Some (PStr "alice")
  ∧ files (snd (serve get_last_image world_two_images)) = files world_two_images
  ∧ log (snd (serve get_last_image world_two_images)) = log world_two_images.
Proof.
  destruct (last_image_touches_buffer_only world_two_images KEY_USERNAME)
    as (Hs & Hf & _ & Hl); [done | done |].
  split; [rewrite Hs; vm_compute; reflexivity|]. split; [exact Hf|exact Hl].
Defined.

(** The script with a refused login: the logout of the [finally] raises and
    its exception is what the caller gets. *)
Lemma check_script_always_logs_out_witness :
  InstagrapiCheck.calls
    (snd (InstagrapiCheck.post_picture_to_instagram InstagrapiCheck.api_login_down
            "alice" "wrong" "static/generated_images/a.jpg" "hello"
            InstagrapiCheck.state0))
  = [InstagrapiCheck.CallLogin "alice" "wrong"; InstagrapiCheck.CallLogout]
  ∧ fst (InstagrapiCheck.post_picture_to_instagram InstagrapiCheck.api_login_down
           "alice" "wrong" "static/generated_images/a.jpg" "hello"
           InstagrapiCheck.state0)
    = Raise (MkExn (LibraryError "LoginRequired") "login_required").
Proof.
  destruct (check_script_always_logs_out InstagrapiCheck.api_login_down
              "alice" "wrong" "static/generated_images/a.jpg" "hello"
              InstagrapiCheck.state0)
    as (mid & Hmid & Hcalls & Hraise).
  assert (Emid : mid = [InstagrapiCheck.CallLogin "alice" "wrong"]).
  { destruct Hmid as [->| ->]; [reflexivity|].
    assert (H : length (InstagrapiCheck.calls
                  (snd (InstagrapiCheck.post_picture_to_instagram
                          InstagrapiCheck.api_login_down
                          "alice" "wrong" "static/generated_images/a.jpg" "hello"
                          InstagrapiCheck.state0))) = 2) by (vm_compute; reflexivity).
    rewrite Hcalls in H. discriminate H. }
  subst mid. split; [exact Hcalls|]. apply Hraise. reflexivity.
Defined.

(** The script with everything up, for a file on disk and for one that is
    not. *)
Lemma check_script_true_iff_witness :
  fst (InstagrapiCheck.post_picture_to_instagram InstagrapiCheck.api_up
         "alice" "s3cret" "static/generated_images/a.jpg" "hello"
         InstagrapiCheck.state0)
  = Ret true
  ∧ InstagrapiCheck.calls
      (snd (InstagrapiCheck.post_picture_to_instagram InstagrapiCheck.api_up
              "alice" "s3cret" "static/generated_images/none.jpg" "hello"
              InstagrapiCheck.state0))
    = [InstagrapiCheck.CallLogin "alice" "s3cret"; InstagrapiCheck.CallLogout].
Proof.
  split.
  - apply (check_script_true_iff InstagrapiCheck.api_up
             "alice" "s3cret" "static/generated_images/a.jpg" "hello"
             InstagrapiCheck.state0).
    split; [by exists true|]. split; [|split; [by eexists|by exists true]].
    vm_compute. reflexivity.
  - apply (check_script_true_iff InstagrapiCheck.api_up
             "alice" "s3cret" "static/generated_images/none.jpg" "hello"
             InstagrapiCheck.state0).
    intros Hin. unfold InstagrapiCheck.state0 in Hin. cbn [InstagrapiCheck.disk] in Hin.
    apply elem_of_singleton in Hin. discriminate Hin.
Defined.
